(** * Glucose ET: the numeric core of [app.py]

    A shallow embedding of the four pure functions of [app.py]
    ([compute_T_E], [compute_dE_pct], [classify_with_reason],
    [detailed_guidance]) and of the call sequence behind the
    "Analyze Meal" button, followed by the properties stated about them.

    Arithmetic.  The program computes on IEEE 754 binary64 numbers
    ([np.float64] and Python [float]).  It is embedded twice.

    - Modules [Num] and [App]: a number is an exact rational or one of the
      IEEE special values that the program can reach (numpy answers a
      division by zero with an infinity or a NaN instead of raising).
      Rounding, overflow and the sign of zero are abstracted away.
      Equality of numbers is [feq].  This embedding carries the properties
      that hold for all inputs; they are stated so that rounding does not
      change them (comparisons, signs, zeros, special values, bounds with
      room to spare), and never as an exact value of a rounded result.

    - Module [B64]: the same functions on binary64 itself.  It runs the
      program bit for bit at given inputs, and shows where rounding makes
      the program differ from real-number arithmetic. *)

From Stdlib Require Import QArith Qminmax Lqa Lia List String Ascii Bool.
From Corelib Require Import PrimFloat.
Import ListNotations.

Set Warnings "-inexact-float".

Open Scope string_scope.
Open Scope Q_scope.

(** ** Numbers *)

Module Num.

Inductive f64 : Type :=
| Fin (q : Q)
| Inf (neg : bool)
| NaN.

Definition Qneg (q : Q) : bool := negb (Qle_bool 0 q).

Definition is_zero (x : f64) : bool :=
  match x with
  | Fin q => Qeq_bool q 0
  | _ => false
  end.

Definition is_nan (x : f64) : bool :=
  match x with
  | NaN => true
  | _ => false
  end.

Definition finite (x : f64) : Prop :=
  match x with
  | Fin _ => True
  | _ => False
  end.

(** Same value: rational equality on finite numbers. *)
Definition feq (x y : f64) : Prop :=
  match x, y with
  | Fin a, Fin b => a == b
  | Inf s, Inf t => s = t
  | NaN, NaN => True
  | _, _ => False
  end.

Definition fopp (x : f64) : f64 :=
  match x with
  | Fin a => Fin (- a)
  | Inf s => Inf (negb s)
  | NaN => NaN
  end.

Definition fadd (x y : f64) : f64 :=
  match x, y with
  | NaN, _ | _, NaN => NaN
  | Fin a, Fin b => Fin (a + b)
  | Inf s, Fin _ => Inf s
  | Fin _, Inf t => Inf t
  | Inf s, Inf t => if Bool.eqb s t then Inf s else NaN
  end.

Definition fsub (x y : f64) : f64 := fadd x (fopp y).

Definition fmul (x y : f64) : f64 :=
  match x, y with
  | NaN, _ | _, NaN => NaN
  | Fin a, Fin b => Fin (a * b)
  | Inf s, Fin b => if Qeq_bool b 0 then NaN else Inf (xorb s (Qneg b))
  | Fin a, Inf t => if Qeq_bool a 0 then NaN else Inf (xorb (Qneg a) t)
  | Inf s, Inf t => Inf (xorb s t)
  end.

(** Division as numpy performs it on [np.float64]: a zero divisor gives
    an infinity (a NaN for 0/0), with a warning and no exception. *)
Definition fdiv (x y : f64) : f64 :=
  match x, y with
  | NaN, _ | _, NaN => NaN
  | Fin a, Fin b =>
      if Qeq_bool b 0
      then (if Qeq_bool a 0 then NaN else Inf (Qneg a))
      else Fin (a / b)
  | Fin _, Inf _ => Fin 0
  | Inf s, Fin b => Inf (xorb s (Qneg b))
  | Inf _, Inf _ => NaN
  end.

(** IEEE comparison: unordered ([None]) as soon as a NaN is involved. *)
Definition fcmp (x y : f64) : option comparison :=
  match x, y with
  | NaN, _ | _, NaN => None
  | Fin a, Fin b => Some (a ?= b)
  | Fin _, Inf t => Some (if t then Gt else Lt)
  | Inf s, Fin _ => Some (if s then Lt else Gt)
  | Inf s, Inf t =>
      Some (match s, t with
            | true, false => Lt
            | false, true => Gt
            | _, _ => Eq
            end)
  end.

Definition fleb (x y : f64) : bool :=
  match fcmp x y with
  | Some Lt | Some Eq => true
  | _ => false
  end.

Definition fltb (x y : f64) : bool :=
  match fcmp x y with
  | Some Lt => true
  | _ => false
  end.

Definition feqb (x y : f64) : bool :=
  match fcmp x y with
  | Some Eq => true
  | _ => false
  end.

Definition fgeb (x y : f64) : bool := fleb y x.

(** [np.maximum] and [np.minimum]: a NaN operand propagates. *)
Definition np_maximum (x y : f64) : f64 :=
  if is_nan x || is_nan y then NaN else if fleb x y then y else x.

Definition np_minimum (x y : f64) : f64 :=
  if is_nan x || is_nan y then NaN else if fleb x y then x else y.

(** [np.clip(x, lo, hi)]. *)
Definition np_clip (x lo hi : f64) : f64 :=
  np_minimum (np_maximum x lo) hi.

(** [np.mean]: the sum over the element count ([nan] on the empty array). *)
Definition np_sum (xs : list f64) : f64 := fold_left fadd xs (Fin 0).

Definition np_mean (xs : list f64) : f64 :=
  fdiv (np_sum xs) (Fin (inject_Z (Z.of_nat (List.length xs)))).

Declare Scope f64_scope.
Delimit Scope f64_scope with f64.
Bind Scope f64_scope with f64.
Infix "+" := fadd : f64_scope.
Infix "-" := fsub : f64_scope.
Infix "*" := fmul : f64_scope.
Infix "/" := fdiv : f64_scope.
Infix "=~" := feq (at level 70, no associativity) : f64_scope.
Notation "x <= y" := (fleb x y = true) : f64_scope.
Notation "x < y" := (fltb x y = true) : f64_scope.
Notation "x >= y" := (fgeb x y = true) : f64_scope.

End Num.
Import Num.

(** ** Exceptions *)

Inductive exn : Type :=
| IndexError
| ValueError
| ZeroDivisionError.

Inductive result (A : Type) : Type :=
| Ok (a : A)
| Raise (e : exn).
Arguments Ok {A} a.
Arguments Raise {A} e.

Definition bind {A B : Type} (m : result A) (k : A -> result B) : result B :=
  match m with
  | Ok a => k a
  | Raise e => Raise e
  end.

Notation "x <- m ;; k" := (bind m (fun x => k))
  (at level 61, m at next level, right associativity).

(** ** The program *)

Module App.

(** Python-level operations on [float]: [/] raises on a zero divisor. *)
Definition py_div (x y : f64) : result f64 :=
  if is_zero y then Raise ZeroDivisionError else Ok (x / y)%f64.

(** [np.min]: refuses the empty array. *)
Definition np_min (xs : list f64) : result f64 :=
  match xs with
  | [] => Raise ValueError
  | x :: rest => Ok (fold_left np_minimum rest x)
  end.

(** [E[0]]. *)
Definition first (xs : list f64) : result f64 :=
  match xs with
  | [] => Raise IndexError
  | x :: _ => Ok x
  end.

(** Python's [sum] over a list: a left fold starting from the integer 0. *)
Definition py_sum (xs : list f64) : f64 := fold_left fadd xs (Fin 0).

(** [[x for x in steps if x is not None]]. *)
Fixpoint not_None (xs : list (option f64)) : list f64 :=
  match xs with
  | [] => []
  | Some x :: rest => x :: not_None rest
  | None :: rest => not_None rest
  end.

(** *** ET engine *)

Definition g_min_default : f64 := Fin 3.0.
Definition g_max_default : f64 := Fin 25.0.

(** [compute_T_E(g_values, g_min, g_max)] returns [(E, T)]; the array
    operations act elementwise and [T**2] is the square. *)
Definition compute_T_E (g_values : list f64) (g_min g_max : f64)
  : list f64 * list f64 :=
  let g := g_values in
  let T := map (fun x => (x - g_min) / (g_max - g_min))%f64 g in
  let T := map (fun x => np_clip x (Fin 0.0) (Fin 1.0)) T in
  let E := map (fun x => Fin 1.0 - x * x)%f64 T in
  (E, T).

(** [E[i]], for an index within the array. *)
Definition item (E : list f64) (i : nat) : f64 := nth i E NaN.

(** The loop body of [compute_dE_pct].  [E] is the numpy array that
    [compute_T_E] returned, so the division is numpy's. *)
Definition dE_at (E : list f64) (i : nat) : f64 :=
  ((item E i - item E (i - 1)) / item E (i - 1) * Fin 100.0)%f64.

(** [compute_dE_pct(E)]: [None] first, then for [i] in
    [range(1, len(E))] the relative change from [E[i-1]] to [E[i]]. *)
Definition compute_dE_pct (E : list f64) : list (option f64) :=
  [None] ++ map (fun i => Some (dE_at E i)) (seq 1 (List.length E - 1)).

(** *** Classification *)

Record summary : Type := mkSummary {
  status : string;
  reason : string;
  E_pre : f64;
  E_min : f64;
  E_mean : f64;
  E_mean_rel : f64
}.

Definition reason_GREEN : string :=
  "GREEN – mean Bio-Time level remains close to the pre-meal state; " ++
  "the contraction of biological time over this meal is mild.".

Definition reason_YELLOW : string :=
  "YELLOW – mean Bio-Time level is moderately reduced; " ++
  "this meal consumes a noticeable fraction of regulatory time.".

Definition reason_RED : string :=
  "RED – mean Bio-Time level is markedly reduced; " ++
  "this meal compresses biological time and limits recovery windows.".

Definition classify_with_reason (E : list f64) : result summary :=
  E_pre <- first E ;;
  E_min <- np_min E ;;
  let E_mean := np_mean E in
  E_mean_rel <-
    (if feqb E_pre (Fin 0)
     then Ok (Fin 100.0)
     else q <- py_div E_mean E_pre ;; Ok (q * Fin 100.0)%f64) ;;
  let '(status, reason) :=
    if fgeb E_mean_rel (Fin 90.0) then ("GREEN", reason_GREEN)
    else if fgeb E_mean_rel (Fin 75.0) then ("YELLOW", reason_YELLOW)
    else ("RED", reason_RED) in
  Ok (mkSummary status reason E_pre E_min E_mean E_mean_rel).

(** *** Guidance *)

Definition nl : string := String (ascii_of_nat 10) EmptyString.

Definition guidance_GREEN : string :=
  "**Scientific guidance**" ++ nl ++
  "- The overall Bio-Time level stays near the pre-meal baseline." ++ nl ++
  "- Such meals are compatible with long-term metabolic resilience." ++ nl ++
  "- Maintain fibre and protein intake; avoid excessive liquid sugars." ++ nl.

Definition guidance_YELLOW : string :=
  "**Scientific guidance**" ++ nl ++
  "- The system accepts a moderate Bio-Time contraction to handle this meal." ++ nl ++
  "- Repeated YELLOW patterns may accumulate subtle 'time-debt' – fatigue or brain fog after meals." ++ nl ++
  "- Reducing fast sugars and adding fibre/protein can lower the Bio-Time cost." ++ nl.

Definition guidance_RED : string :=
  "**Scientific guidance**" ++ nl ++
  "- The meal induces a strong average contraction of biological time." ++ nl ++
  "- Recurrent RED patterns are compatible with higher metabolic and vascular stress." ++ nl ++
  "- Consider reducing high-GI and liquid carbohydrates and seeking professional advice if common." ++ nl.

Definition detailed_guidance (status : string) : string :=
  if String.eqb status "GREEN" then guidance_GREEN
  else if String.eqb status "YELLOW" then guidance_YELLOW
  else guidance_RED.

(** *** The "Analyze Meal" call sequence

    What the button handler computes before it renders: the arrays, the
    step changes, [steps = dE[1:]], the net shift, the classification and
    the guidance text.  The rendering calls are left out. *)

Record analysis : Type := mkAnalysis {
  an_E : list f64;
  an_T : list f64;
  an_dE : list (option f64);
  an_steps : list (option f64);
  an_net : f64;
  an_summary : summary;
  an_guidance : string
}.

Definition analyze_meal (glucose : list f64) : result analysis :=
  let '(E, T) := compute_T_E glucose g_min_default g_max_default in
  let dE := compute_dE_pct E in
  let steps := tl dE in
  let net := py_sum (not_None steps) in
  s <- classify_with_reason E ;;
  Ok (mkAnalysis E T dE steps net s (detailed_guidance (status s))).

End App.
Import App.

(** ** The program on binary64

    The same functions once more, on the 64-bit IEEE numbers the program
    runs on ([PrimFloat.float]: every operation rounds to nearest, ties to
    even, and overflows to an infinity, as [np.float64] and Python [float]
    do).  This embedding is for evaluating the program at given inputs. *)

Module B64.

Definition np_maximum (x y : float) : float :=
  if PrimFloat.is_nan x || PrimFloat.is_nan y then PrimFloat.nan
  else if PrimFloat.leb x y then y else x.

Definition np_minimum (x y : float) : float :=
  if PrimFloat.is_nan x || PrimFloat.is_nan y then PrimFloat.nan
  else if PrimFloat.leb x y then x else y.

Definition np_clip (x lo hi : float) : float :=
  np_minimum (np_maximum x lo) hi.

(** The element count as a binary64 number (exact below 2^53). *)
Fixpoint count (n : nat) : float :=
  match n with
  | O => 0%float
  | S k => PrimFloat.add (count k) 1%float
  end.

(** [np.sum] of a short array adds the elements from left to right. *)
Definition np_sum (xs : list float) : float :=
  fold_left PrimFloat.add xs 0%float.

Definition np_mean (xs : list float) : float :=
  PrimFloat.div (np_sum xs) (count (List.length xs)).

Definition np_min (xs : list float) : result float :=
  match xs with
  | [] => Raise ValueError
  | x :: rest => Ok (fold_left np_minimum rest x)
  end.

Definition first (xs : list float) : result float :=
  match xs with
  | [] => Raise IndexError
  | x :: _ => Ok x
  end.

Definition py_div (x y : float) : result float :=
  if PrimFloat.eqb y 0%float then Raise ZeroDivisionError
  else Ok (PrimFloat.div x y).

Definition py_sum (xs : list float) : float :=
  fold_left PrimFloat.add xs 0%float.

Fixpoint not_None (xs : list (option float)) : list float :=
  match xs with
  | [] => []
  | Some x :: rest => x :: not_None rest
  | None :: rest => not_None rest
  end.

Definition compute_T_E (g_values : list float) (g_min g_max : float)
  : list float * list float :=
  let g := g_values in
  let T := map (fun x => (x - g_min) / (g_max - g_min))%float g in
  let T := map (fun x => np_clip x 0.0%float 1.0%float) T in
  let E := map (fun x => 1.0 - x * x)%float T in
  (E, T).

Definition item (E : list float) (i : nat) : float := nth i E PrimFloat.nan.

Definition dE_at (E : list float) (i : nat) : float :=
  ((item E i - item E (i - 1)) / item E (i - 1) * 100.0)%float.

Definition compute_dE_pct (E : list float) : list (option float) :=
  [None] ++ map (fun i => Some (dE_at E i)) (seq 1 (List.length E - 1)).

Record summary : Type := mkSummary {
  status : string;
  reason : string;
  E_pre : float;
  E_min : float;
  E_mean : float;
  E_mean_rel : float
}.

Definition classify_with_reason (E : list float) : result summary :=
  E_pre <- first E ;;
  E_min <- np_min E ;;
  let E_mean := np_mean E in
  E_mean_rel <-
    (if PrimFloat.eqb E_pre 0%float
     then Ok 100.0%float
     else q <- py_div E_mean E_pre ;; Ok (q * 100.0)%float) ;;
  let '(status, reason) :=
    if PrimFloat.leb 90.0%float E_mean_rel then ("GREEN", reason_GREEN)
    else if PrimFloat.leb 75.0%float E_mean_rel then ("YELLOW", reason_YELLOW)
    else ("RED", reason_RED) in
  Ok (mkSummary status reason E_pre E_min E_mean E_mean_rel).

Record analysis : Type := mkAnalysis {
  an_E : list float;
  an_T : list float;
  an_dE : list (option float);
  an_steps : list (option float);
  an_net : float;
  an_summary : summary;
  an_guidance : string
}.

Definition analyze_meal (glucose : list float) : result analysis :=
  let '(E, T) := compute_T_E glucose 3.0%float 25.0%float in
  let dE := compute_dE_pct E in
  let steps := tl dE in
  let net := py_sum (not_None steps) in
  s <- classify_with_reason E ;;
  Ok (mkAnalysis E T dE steps net s (detailed_guidance (status s))).

End B64.

(** ** Auxiliary definitions for the statements *)

(** One entry of the arrays [T] and [E] of [compute_T_E]. *)
Definition T_of (g_min g_max g : f64) : f64 :=
  np_clip ((g - g_min) / (g_max - g_min))%f64 (Fin 0.0) (Fin 1.0).

Definition E_of_T (T : f64) : f64 := (Fin 1.0 - T * T)%f64.

(** The value the classifier buckets (lines 48-51 of [app.py]), as a
    function of the baseline and of the whole sequence. *)
Definition rel_of (e0 : f64) (E : list f64) : f64 :=
  if feqb e0 (Fin 0) then Fin 100.0 else (np_mean E / e0 * Fin 100.0)%f64.

(** A 5-sample sequence of finite values. *)
Definition q5 (a b c d e : Q) : list f64 := [Fin a; Fin b; Fin c; Fin d; Fin e].

(** The sum of a sequence of rationals, for stating what a mean is. *)
Definition Qsum (qs : list Q) : Q := fold_left Qplus qs 0.

(** Inputs of the wrong length: four and six readings. *)
Definition four_samples : list f64 := map Fin [4.0; 6.0; 7.0; 6.5].
Definition six_samples : list f64 := map Fin [4.0; 6.0; 7.0; 6.5; 5.5; 25.0].

(** The index mapper on exact numbers: the clamped position of [g] between
    the bounds and one minus its square. *)
Definition T_val (lo hi g : Q) : Q := Qmin (Qmax ((g - lo) / (hi - lo)) 0.0) 1.0.
Definition E_val (lo hi g : Q) : Q := 1.0 - T_val lo hi g * T_val lo hi g.

(** The dictionary literal of line 170 of [app.py] and its subscript
    [d[key]]; [None] stands for the [KeyError] of a missing key. *)
Definition icon_table : list (string * string) :=
  [("GREEN", "🟢"); ("YELLOW", "🟡"); ("RED", "🔴")].

Fixpoint dict_get (d : list (string * string)) (key : string) : option string :=
  match d with
  | [] => None
  | (k, v) :: rest => if String.eqb key k then Some v else dict_get rest key
  end.

(** [compute_dE_pct] called with a plain list of Python floats instead of
    a numpy array: the same loop, but the division is Python's, which
    raises [ZeroDivisionError] on a zero divisor and ends the call. *)
Fixpoint dE_loop_py (E : list f64) (idx : list nat) : result (list (option f64)) :=
  match idx with
  | [] => Ok []
  | i :: rest =>
      q <- py_div (item E i - item E (i - 1))%f64 (item E (i - 1)) ;;
      deltas <- dE_loop_py E rest ;;
      Ok (Some (q * Fin 100.0)%f64 :: deltas)
  end.

Definition compute_dE_pct_py (E : list f64) : result (list (option f64)) :=
  deltas <- dE_loop_py E (seq 1 (List.length E - 1)) ;;
  Ok (None :: deltas).

(** How bad a status is: GREEN best, RED worst. *)
Definition severity (status : string) : nat :=
  if String.eqb status "GREEN" then 0
  else if String.eqb status "YELLOW" then 1
  else 2.

(** Closed goals about a concrete run: evaluate, then read the result off. *)
Ltac by_run :=
  vm_compute;
  repeat first [ reflexivity | discriminate | eexists | split ].

(** ** Facts about numbers *)

Section NumFacts.

Lemma fleb_Fin (a b : Q) : fleb (Fin a) (Fin b) = true <-> a <= b.
Proof.
  unfold fleb; simpl. rewrite Qle_alt.
  destruct (a ?= b); split; intro H; try reflexivity; try discriminate;
    try (intro; discriminate); exfalso; apply H; reflexivity.
Qed.

Lemma fltb_Fin (a b : Q) : fltb (Fin a) (Fin b) = true <-> a < b.
Proof.
  unfold fltb; simpl. rewrite Qlt_alt.
  destruct (a ?= b); split; intro H; try reflexivity; discriminate.
Qed.

Lemma feqb_Fin (a b : Q) : feqb (Fin a) (Fin b) = true <-> a == b.
Proof.
  unfold feqb; simpl. rewrite Qeq_alt.
  destruct (a ?= b); split; intro H; try reflexivity; discriminate.
Qed.

Lemma fgeb_Fin (a b : Q) : fgeb (Fin a) (Fin b) = true <-> b <= a.
Proof. unfold fgeb. apply fleb_Fin. Qed.

Lemma fleb_Fin_false (a b : Q) : fleb (Fin a) (Fin b) = false <-> b < a.
Proof.
  rewrite <- Bool.not_true_iff_false, fleb_Fin. split; intro H.
  - apply Qnot_le_lt; exact H.
  - apply Qlt_not_le; exact H.
Qed.

Lemma feqb_Fin_false (a b : Q) : feqb (Fin a) (Fin b) = false <-> ~ a == b.
Proof. rewrite <- Bool.not_true_iff_false, feqb_Fin. tauto. Qed.

Lemma Qeq_bool_false (a b : Q) : Qeq_bool a b = false <-> ~ a == b.
Proof. rewrite <- Bool.not_true_iff_false, Qeq_bool_iff. tauto. Qed.

Lemma is_zero_feqb (x : f64) : is_zero x = feqb x (Fin 0).
Proof.
  destruct x as [q | s | ]; simpl; try reflexivity; [ | destruct s; reflexivity ].
  apply Bool.eq_true_iff_eq. rewrite Qeq_bool_iff, feqb_Fin. tauto.
Qed.

Lemma feq_refl (x : f64) : (x =~ x)%f64.
Proof. destruct x; simpl; auto with qarith. Qed.

Lemma feq_sym (x y : f64) : (x =~ y -> y =~ x)%f64.
Proof. destruct x, y; simpl; auto with qarith. Qed.

Lemma feq_trans (x y z : f64) : (x =~ y -> y =~ z -> x =~ z)%f64.
Proof.
  destruct x, y, z; simpl; try tauto; try congruence.
  intros H1 H2; rewrite H1; exact H2.
Qed.

#[global] Instance feq_Equivalence : Equivalence feq.
Proof.
  split; [ exact feq_refl | exact feq_sym | exact feq_trans ].
Qed.

Lemma fcmp_feq (x x' y y' : f64) :
  (x =~ x')%f64 -> (y =~ y')%f64 -> fcmp x y = fcmp x' y'.
Proof.
  destruct x, x', y, y'; simpl; try tauto; intros H1 H2; subst; try reflexivity.
  rewrite H1, H2; reflexivity.
Qed.

Lemma fgeb_feq (x x' y : f64) : (x =~ x')%f64 -> fgeb x y = fgeb x' y.
Proof.
  intro H. unfold fgeb, fleb.
  rewrite (fcmp_feq y y x x' (feq_refl y) H); reflexivity.
Qed.

End NumFacts.

(** ** The classifier *)

Section Classifier.

Lemma py_div_guarded (x y : f64) :
  feqb y (Fin 0) = false -> py_div x y = Ok (x / y)%f64.
Proof. intro H. unfold py_div. rewrite is_zero_feqb, H. reflexivity. Qed.

Lemma classify_cons (e0 : f64) (rest : list f64) :
  classify_with_reason (e0 :: rest) =
  let E := e0 :: rest in
  let rel := rel_of e0 E in
  Ok (mkSummary
        (if fgeb rel (Fin 90.0) then "GREEN"
         else if fgeb rel (Fin 75.0) then "YELLOW" else "RED")
        (if fgeb rel (Fin 90.0) then reason_GREEN
         else if fgeb rel (Fin 75.0) then reason_YELLOW else reason_RED)
        e0 (fold_left np_minimum rest e0) (np_mean E) rel).
Proof.
  unfold classify_with_reason, rel_of; cbn [first np_min bind].
  destruct (feqb e0 (Fin 0)) eqn:Hz; cbn [bind].
  - destruct (fgeb _ (Fin 90.0)); [ reflexivity | ].
    destruct (fgeb _ (Fin 75.0)); reflexivity.
  - rewrite (py_div_guarded _ _ Hz); cbn [bind].
    destruct (fgeb _ (Fin 90.0)); [ reflexivity | ].
    destruct (fgeb _ (Fin 75.0)); reflexivity.
Qed.

Lemma classify_nil : classify_with_reason [] = Raise IndexError.
Proof. reflexivity. Qed.

Lemma classify_total (E : list f64) :
  E <> [] -> exists s, classify_with_reason E = Ok s.
Proof.
  destruct E as [ | e0 rest ]; [ congruence | intros _ ].
  rewrite classify_cons. eexists; reflexivity.
Qed.



End Classifier.

Ltac q_bool :=
  repeat match goal with
    | |- fleb (Fin _) (Fin _) = true => apply fleb_Fin
    | |- fleb (Fin _) (Fin _) = false => apply fleb_Fin_false
    | |- fgeb (Fin _) (Fin _) = true => apply fgeb_Fin
    | |- fltb (Fin _) (Fin _) = true => apply fltb_Fin
    | |- feqb (Fin _) (Fin _) = true => apply feqb_Fin
    | |- feqb (Fin _) (Fin _) = false => apply feqb_Fin_false
    | H : fleb (Fin _) (Fin _) = true |- _ => apply fleb_Fin in H
    | H : fleb (Fin _) (Fin _) = false |- _ => apply fleb_Fin_false in H
    | H : fgeb (Fin _) (Fin _) = true |- _ => apply fgeb_Fin in H
    | H : fltb (Fin _) (Fin _) = true |- _ => apply fltb_Fin in H
    | H : feqb (Fin _) (Fin _) = true |- _ => apply feqb_Fin in H
    | H : feqb (Fin _) (Fin _) = false |- _ => apply feqb_Fin_false in H
    end.

Lemma fleb_trans (x y z : f64) :
  fleb x y = true -> fleb y z = true -> fleb x z = true.
Proof.
  destruct x as [a | [ | ] | ], y as [b | [ | ] | ], z as [c | [ | ] | ];
    intros H1 H2; try reflexivity; try discriminate.
  q_bool. lra.
Qed.




(** Glucose inputs that land exactly on the two thresholds. *)
Example glucose_at_90 :
  exists a, analyze_meal (q5 3 14 14 3 3) = Ok a /\
    (E_mean_rel (an_summary a) =~ Fin 90.0)%f64 /\
    status (an_summary a) = "GREEN".
Proof. by_run. Qed.

Example glucose_at_75 :
  exists a, analyze_meal (q5 3 25 14 3 3) = Ok a /\
    (E_mean_rel (an_summary a) =~ Fin 75.0)%f64 /\
    status (an_summary a) = "YELLOW".
Proof. by_run. Qed.



(** ** Step changes and net shift *)

Section StepChanges.

Lemma not_None_Some (f : nat -> f64) (l : list nat) :
  not_None (map (fun i => Some (f i)) l) = map f l.
Proof. induction l as [ | i l IH ]; cbn; [ | rewrite IH ]; reflexivity. Qed.

(** The list summed into the net shift holds every computed step. *)
Lemma steps_of_dE (E : list f64) :
  not_None (tl (compute_dE_pct E)) = map (dE_at E) (seq 1 (List.length E - 1)).
Proof. unfold compute_dE_pct. cbn [app tl]. apply not_None_Some. Qed.

Lemma dE_nth (E : list f64) (i : nat) :
  (1 <= i < List.length E)%nat ->
  nth i (compute_dE_pct E) None = Some (dE_at E i).
Proof.
  intros Hi. unfold compute_dE_pct. cbn [app].
  destruct i as [ | j ]; [ lia | ]. cbn [nth].
  rewrite (nth_indep _ None (Some (dE_at E 0))) by (rewrite length_map, length_seq; lia).
  rewrite (map_nth (fun i => Some (dE_at E i))), seq_nth by lia.
  reflexivity.
Qed.

Lemma fadd_not_finite_l (x y : f64) : ~ finite x -> ~ finite (x + y)%f64.
Proof.
  destruct x as [ a | s | ]; cbn; [ tauto | | tauto ].
  destruct y as [ b | t | ]; cbn; try tauto.
  destruct (Bool.eqb s t); cbn; tauto.
Qed.

Lemma fadd_not_finite_r (x y : f64) : ~ finite y -> ~ finite (x + y)%f64.
Proof.
  destruct y as [ b | t | ]; cbn; [ tauto | | destruct x; cbn; tauto ].
  destruct x as [ a | s | ]; cbn; try tauto.
  destruct (Bool.eqb s t); cbn; tauto.
Qed.

Lemma fold_fadd_not_finite (xs : list f64) (acc : f64) :
  ~ finite acc -> ~ finite (fold_left fadd xs acc).
Proof.
  revert acc. induction xs as [ | x xs IH ]; cbn; intros acc H; [ exact H | ].
  apply IH, fadd_not_finite_l, H.
Qed.

(** Python's [sum] keeps whatever it is fed: one infinity or NaN among
    the summands and the total is not a finite number. *)
Lemma py_sum_not_finite (xs : list f64) (x : f64) :
  In x xs -> ~ finite x -> ~ finite (py_sum xs).
Proof.
  unfold py_sum. generalize (Fin 0). induction xs as [ | y xs IH ]; cbn.
  - tauto.
  - intros acc [ -> | Hin ] Hx.
    + apply fold_fadd_not_finite, fadd_not_finite_r, Hx.
    + apply IH; assumption.
Qed.

Lemma dE_at_zero_predecessor (E : list f64) (i : nat) :
  is_zero (item E (i - 1)) = true -> ~ finite (dE_at E i).
Proof.
  unfold dE_at. destruct (item E (i - 1)) as [ z | | ]; try discriminate.
  cbn [is_zero]. intros Hz.
  destruct (item E i - Fin z)%f64 as [ a | s | ]; cbn; rewrite ?Hz.
  - destruct (Qeq_bool a 0); cbn; tauto.
  - tauto.
  - tauto.
Qed.

End StepChanges.

(** When a predecessor [E[i-1]] is exactly 0 the step-change calculator
    does not raise: step [i] comes out as an infinity or a NaN.  That step
    is not left out of the net shift: the filter keeps everything but
    [None], so the net shift is itself an infinity or a NaN. *)
Lemma zero_predecessor_reaches_net (E : list f64) (i : nat) :
  (1 <= i < List.length E)%nat ->
  is_zero (item E (i - 1)) = true ->
  exists x, nth i (compute_dE_pct E) None = Some x /\
    ~ finite x /\
    In x (not_None (tl (compute_dE_pct E))) /\
    ~ finite (py_sum (not_None (tl (compute_dE_pct E)))).
Proof.
  intros Hi Hz. exists (dE_at E i).
  assert (Hin : In (dE_at E i) (not_None (tl (compute_dE_pct E)))).
  { rewrite steps_of_dE. apply in_map, in_seq. lia. }
  assert (Hnf : ~ finite (dE_at E i)) by (apply dE_at_zero_predecessor, Hz).
  repeat split; try assumption.
  - apply dE_nth, Hi.
  - apply (py_sum_not_finite _ _ Hin Hnf).
Qed.

(** C3, at glucose [[25.0, 4.0, 4.0, 4.0, 4.0]]: the baseline gives
    [E[0] = 0]; the analysis does not raise, the first step change is
    [+inf], it is among the values summed, and the net shift handed to the
    caller is [+inf] instead of the sum of the three defined steps. *)
Theorem C3_net_shift_keeps_undefined_step :
  exists a, analyze_meal (q5 25.0 4.0 4.0 4.0 4.0) = Ok a /\
    (nth 0 (an_E a) NaN =~ Fin 0)%f64 /\
    nth 1 (an_dE a) None = Some (Inf false) /\
    In (Inf false) (not_None (an_steps a)) /\
    an_net a = Inf false /\
    ~ finite (an_net a).
Proof.
  vm_compute.
  eexists; split; [ reflexivity | ].
  split; [ reflexivity | ]. split; [ reflexivity | ].
  split; [ left; reflexivity | ]. split; [ reflexivity | tauto ].
Qed.

(** Two zero readings in a row give [0/0]: the step and the net shift are
    NaN. *)
Example net_shift_nan :
  exists a, analyze_meal (q5 25.0 25.0 4.0 4.0 4.0) = Ok a /\
    nth 0 (an_steps a) None = Some NaN /\
    an_net a = NaN.
Proof. by_run. Qed.

Example zero_predecessor_at_first_step :
  exists x, nth 1 (compute_dE_pct (q5 0 0.99 0.99 0.99 0.99)) None = Some x /\
    ~ finite x /\
    In x (not_None (tl (compute_dE_pct (q5 0 0.99 0.99 0.99 0.99)))) /\
    ~ finite (py_sum (not_None (tl (compute_dE_pct (q5 0 0.99 0.99 0.99 0.99))))).
Proof.
  apply (zero_predecessor_reaches_net (q5 0 0.99 0.99 0.99 0.99) 1).
  - cbn; lia.
  - reflexivity.
Qed.

(** ** The index mapper *)

Section IndexMapper.

Lemma np_clip_Fin (x lo hi : Q) :
  exists t, np_clip (Fin x) (Fin lo) (Fin hi) = Fin t /\
    t == Qmin (Qmax x lo) hi.
Proof.
  unfold np_clip, np_maximum. cbn [is_nan orb].
  destruct (Q.max_spec x lo) as [ [Hlt Hmax] | [Hle Hmax] ];
    destruct (fleb (Fin x) (Fin lo)) eqn:H0; q_bool; try lra;
    unfold np_minimum; cbn [is_nan orb];
    destruct (Q.min_spec (Qmax x lo) hi) as [ [Hlt1 Hmin] | [Hle1 Hmin] ];
    match goal with
    | |- context [fleb ?a ?b] => destruct (fleb a b) eqn:H1
    end; q_bool; try lra;
    eexists; (split; [ reflexivity | lra ]).
Qed.

(** [T] of one finite glucose value, with the default bounds. *)
Lemma T_of_Fin (g : Q) :
  exists t, T_of g_min_default g_max_default (Fin g) = Fin t /\
    t == Qmin (Qmax ((g - 3.0) / (25.0 - 3.0)) 0.0) 1.0.
Proof.
  unfold T_of, g_min_default, g_max_default.
  cbn [fsub fopp fadd fdiv].
  change (Qeq_bool (25.0 + - (3.0)) 0) with false. cbv iota.
  apply np_clip_Fin.
Qed.

Lemma E_of_T_Fin (t : Q) : E_of_T (Fin t) = Fin (1.0 - t * t).
Proof. reflexivity. Qed.

Lemma compute_T_E_maps (gs : list f64) (g_min g_max : f64) :
  compute_T_E gs g_min g_max =
  (map E_of_T (map (T_of g_min g_max) gs), map (T_of g_min g_max) gs).
Proof. unfold compute_T_E. rewrite !map_map. reflexivity. Qed.

Lemma compute_T_E_nth (gs : list f64) (g_min g_max : f64) (i : nat) (g : f64) :
  nth_error gs i = Some g ->
  nth_error (snd (compute_T_E gs g_min g_max)) i = Some (T_of g_min g_max g) /\
  nth_error (fst (compute_T_E gs g_min g_max)) i =
    Some (E_of_T (T_of g_min g_max g)).
Proof.
  intro H. rewrite compute_T_E_maps. cbn [fst snd]. split.
  - apply map_nth_error, H.
  - apply map_nth_error, map_nth_error, H.
Qed.

End IndexMapper.




(** The two boundary readings on binary64: the same values, exactly. *)
Example boundary_readings_b64 :
  B64.compute_T_E [3.0; 25.0]%float 3.0 25.0
  = ([1.0; 0.0]%float, [0.0; 1.0]%float).
Proof. vm_compute. reflexivity. Qed.

(** The default readings of the input form, run on binary64. *)
Example default_meal_b64 :
  exists a, B64.analyze_meal [4.0; 6.0; 7.0; 6.5; 5.5]%float = Ok a /\
    B64.E_pre (B64.an_summary a) = 0.9979338842975206%float /\
    B64.E_min (B64.an_summary a) = 0.9669421487603306%float /\
    B64.E_mean_rel (B64.an_summary a) = 98.36438923395445%float /\
    B64.status (B64.an_summary a) = "GREEN".
Proof. by_run. Qed.

(** ** Input length *)

(** C6 (as stated, refuted).  Four glucose values are not rejected: the
    whole analysis runs on them and returns a status. *)
Lemma C6_four_samples_are_analysed :
  List.length four_samples <> 5%nat /\
  exists a, analyze_meal four_samples = Ok a /\
    List.length (an_E a) = 4%nat /\
    List.length (an_steps a) = 3%nat /\
    status (an_summary a) = "GREEN".
Proof.
  split; [ discriminate | by_run ].
Qed.

(** Six values are analysed as well. *)
Example six_samples_are_analysed :
  exists a, analyze_meal six_samples = Ok a /\
    List.length (an_E a) = 6%nat /\
    List.length (an_steps a) = 5%nat /\
    status (an_summary a) = "YELLOW".
Proof. by_run. Qed.

Lemma analyze_meal_ok (glucose : list f64) (s : summary) :
  classify_with_reason (fst (compute_T_E glucose g_min_default g_max_default))
    = Ok s ->
  exists a, analyze_meal glucose = Ok a /\
    an_summary a = s /\
    an_T a = map (T_of g_min_default g_max_default) glucose /\
    an_E a = map E_of_T (an_T a) /\
    an_dE a = compute_dE_pct (an_E a) /\
    an_steps a = tl (an_dE a) /\
    an_net a = py_sum (not_None (an_steps a)) /\
    an_guidance a = detailed_guidance (status s).
Proof.
  intro H. unfold analyze_meal. rewrite compute_T_E_maps in *. cbn [fst] in H.
  rewrite H. cbn [bind]. eexists; split; [ reflexivity | ].
  cbn [an_summary an_T an_E an_dE an_steps an_net an_guidance].
  repeat split; reflexivity.
Qed.

(** C6 (amended).  The core validates no length.  The empty input fails
    with the [IndexError] of [E[0]]; an input of any other length [n] is
    analysed over exactly its [n] values: [T] and [E] are the elementwise
    images of the input, the step list has [n] entries ([None] first) of
    which [n - 1] are handed on, and mean and minimum range over all [n]
    entries of [E]. *)
Theorem C6_any_length_is_analysed (glucose : list f64) :
  (glucose = [] -> analyze_meal glucose = Raise IndexError) /\
  (glucose <> [] ->
   exists a, analyze_meal glucose = Ok a /\
     an_T a = map (T_of g_min_default g_max_default) glucose /\
     an_E a = map E_of_T (an_T a) /\
     List.length (an_T a) = List.length glucose /\
     List.length (an_E a) = List.length glucose /\
     List.length (an_dE a) = List.length glucose /\
     List.length (an_steps a) = (List.length glucose - 1)%nat /\
     E_mean (an_summary a) = np_mean (an_E a) /\
     np_min (an_E a) = Ok (E_min (an_summary a))).
Proof.
  split.
  - intros ->. reflexivity.
  - destruct glucose as [ | g gs ]; [ congruence | intros _ ].
    set (glucose := g :: gs).
    destruct (classify_total (fst (compute_T_E glucose g_min_default g_max_default)))
      as [s Hs]; [ discriminate | ].
    destruct (analyze_meal_ok glucose s Hs)
      as [a [Ha [Hsum [HT [HE [HdE [Hsteps _]]]]]]].
    exists a. split; [ exact Ha | ].
    rewrite compute_T_E_maps in Hs. cbn [fst] in Hs. rewrite <- HT, <- HE in Hs.
    assert (HlT : List.length (an_T a) = List.length glucose)
      by (rewrite HT; apply length_map).
    assert (HlE : List.length (an_E a) = List.length glucose)
      by (rewrite HE, length_map; exact HlT).
    assert (HldE : List.length (an_dE a) = List.length glucose).
    { rewrite HdE. unfold compute_dE_pct.
      rewrite length_app, length_map, length_seq, HlE. cbn. lia. }
    destruct (an_E a) as [ | e0 rest ] eqn:HEa; [ discriminate | ].
    rewrite classify_cons in Hs. cbv zeta in Hs. injection Hs as Hs.
    rewrite Hsum, <- Hs. cbn [E_mean E_min np_min].
    repeat split; try assumption; try reflexivity.
    rewrite Hsteps. destruct (an_dE a); cbn in *; lia.
Qed.

Lemma C6_any_length_is_analysed_witness :
  exists a, analyze_meal four_samples = Ok a /\
     an_T a = map (T_of g_min_default g_max_default) four_samples /\
     an_E a = map E_of_T (an_T a) /\
     List.length (an_T a) = List.length four_samples /\
     List.length (an_E a) = List.length four_samples /\
     List.length (an_dE a) = List.length four_samples /\
     List.length (an_steps a) = (List.length four_samples - 1)%nat /\
     E_mean (an_summary a) = np_mean (an_E a) /\
     np_min (an_E a) = Ok (E_min (an_summary a)).
Proof.
  apply (proj2 (C6_any_length_is_analysed four_samples)).
  discriminate.
Defined.

(** ** Status as a function of the relative mean *)

Lemma classify_status_reason (E : list f64) (s : summary) :
  classify_with_reason E = Ok s ->
  status s = (if fgeb (E_mean_rel s) (Fin 90.0) then "GREEN"
              else if fgeb (E_mean_rel s) (Fin 75.0) then "YELLOW" else "RED") /\
  reason s = (if fgeb (E_mean_rel s) (Fin 90.0) then reason_GREEN
              else if fgeb (E_mean_rel s) (Fin 75.0) then reason_YELLOW
              else reason_RED).
Proof.
  destruct E as [ | e0 rest ]; [ discriminate | ].
  rewrite classify_cons. cbv zeta. intros [= <-]. split; reflexivity.
Qed.

Lemma analyze_meal_summary (glucose : list f64) (a : analysis) :
  analyze_meal glucose = Ok a ->
  classify_with_reason (an_E a) = Ok (an_summary a) /\
  an_guidance a = detailed_guidance (status (an_summary a)).
Proof.
  unfold analyze_meal. rewrite compute_T_E_maps.
  destruct (classify_with_reason _) as [s | e] eqn:Hs; cbn [bind]; [ | discriminate ].
  intros [= <-]. cbn [an_E an_summary an_guidance]. split; [ exact Hs | reflexivity ].
Qed.

(** C7.  Two analyses whose [E_mean_rel] is the same number carry the same
    status and the same reason text (and hence the same guidance),
    whatever the glucose values were. *)
Theorem C7_status_depends_on_rel_only (g1 g2 : list f64) (a1 a2 : analysis) :
  List.length g1 = 5%nat -> List.length g2 = 5%nat ->
  analyze_meal g1 = Ok a1 ->
  analyze_meal g2 = Ok a2 ->
  (E_mean_rel (an_summary a1) =~ E_mean_rel (an_summary a2))%f64 ->
  status (an_summary a1) = status (an_summary a2) /\
  reason (an_summary a1) = reason (an_summary a2) /\
  an_guidance a1 = an_guidance a2.
Proof.
  intros _ _ H1 H2 Hrel.
  apply analyze_meal_summary in H1, H2.
  destruct H1 as [H1 G1], H2 as [H2 G2].
  apply classify_status_reason in H1, H2.
  destruct H1 as [S1 R1], H2 as [S2 R2].
  assert (HS : status (an_summary a1) = status (an_summary a2)).
  { rewrite S1, S2, !(fgeb_feq _ _ _ Hrel). reflexivity. }
  split; [ exact HS | ]. split.
  - rewrite R1, R2, !(fgeb_feq _ _ _ Hrel). reflexivity.
  - rewrite G1, G2, HS. reflexivity.
Qed.

(** Two different meals with the same relative mean (the post-meal
    readings are permuted). *)
Lemma C7_status_depends_on_rel_only_witness :
  exists a1 a2,
    analyze_meal (q5 4.0 6.0 7.0 6.5 5.5) = Ok a1 /\
    analyze_meal (q5 4.0 7.0 5.5 6.0 6.5) = Ok a2 /\
    an_E a1 <> an_E a2 /\
    status (an_summary a1) = status (an_summary a2) /\
    reason (an_summary a1) = reason (an_summary a2) /\
    an_guidance a1 = an_guidance a2.
Proof.
  eexists _, _.
  split; [ vm_compute; reflexivity | ]. split; [ vm_compute; reflexivity | ].
  split; [ discriminate | ].
  apply (C7_status_depends_on_rel_only
           (q5 4.0 6.0 7.0 6.5 5.5) (q5 4.0 7.0 5.5 6.0 6.5));
    vm_compute; reflexivity.
Defined.

(** ** Constant input *)

Lemma inject_nat_nonzero (n : nat) :
  Qeq_bool (inject_Z (Z.of_nat (S n))) 0 = false.
Proof.
  apply Qeq_bool_false. unfold Qeq. cbn [Qnum Qden inject_Z]. lia.
Qed.

(** C8 (as stated, refuted).  On binary64 the mean of five equal numbers
    need not be that number.  For glucose 7.0 five times the common E is
    not zero, [E_mean] is below [E_pre] and [E_mean_rel] is below 100.0
    (it is 99.99999999999999); the status is GREEN all the same. *)
Lemma C8_mean_differs_from_baseline :
  exists a, B64.analyze_meal [7.0; 7.0; 7.0; 7.0; 7.0]%float = Ok a /\
    PrimFloat.eqb (B64.E_pre (B64.an_summary a)) 0.0 = false /\
    PrimFloat.ltb (B64.E_mean (B64.an_summary a))
                  (B64.E_pre (B64.an_summary a)) = true /\
    PrimFloat.ltb (B64.E_mean_rel (B64.an_summary a)) 100.0 = true /\
    B64.E_mean_rel (B64.an_summary a) = 99.99999999999999%float /\
    B64.status (B64.an_summary a) = "GREEN".
Proof. by_run. Qed.

(** C8 (amended).  Five equal glucose values are always classified GREEN.
    When the common E is zero the [E_pre == 0] case sets [E_mean_rel] to
    100.0; when it is not zero [E_mean_rel] is [E_mean / E_pre * 100.0],
    which is at least 90.0. *)
Theorem C8_constant_input_is_GREEN (g : Q) :
  exists a, analyze_meal (q5 g g g g g) = Ok a /\
    status (an_summary a) = "GREEN" /\
    (E_mean_rel (an_summary a) >= Fin 90.0)%f64 /\
    (feqb (E_pre (an_summary a)) (Fin 0) = true ->
       E_mean_rel (an_summary a) = Fin 100.0) /\
    (feqb (E_pre (an_summary a)) (Fin 0) = false ->
       E_mean_rel (an_summary a) =
         (E_mean (an_summary a) / E_pre (an_summary a) * Fin 100.0)%f64).
Proof.
  destruct (T_of_Fin g) as [t [HT _]].
  set (e := 1.0 - t * t).
  assert (HE : fst (compute_T_E (q5 g g g g g) g_min_default g_max_default)
               = q5 e e e e e).
  { rewrite compute_T_E_maps. unfold q5. cbn [fst map]. rewrite HT, E_of_T_Fin. reflexivity. }
  assert (Hmean : np_mean (q5 e e e e e)
                  = Fin ((0 + e + e + e + e + e) / inject_Z (Z.of_nat 5))).
  { unfold np_mean, np_sum, q5. cbn [fold_left fadd List.length fdiv].
    rewrite inject_nat_nonzero. reflexivity. }
  assert (Hm : (0 + e + e + e + e + e) / inject_Z (Z.of_nat 5) == e)
    by (cbn [Z.of_nat Pos.of_succ_nat Pos.succ]; field).
  destruct (classify_total (q5 e e e e e)) as [s Hs]; [ discriminate | ].
  rewrite <- HE in Hs.
  destruct (analyze_meal_ok _ _ Hs) as [a [Ha [Hsum _]]].
  exists a. split; [ exact Ha | ]. rewrite Hsum.
  rewrite HE in Hs. unfold q5 in Hs. rewrite classify_cons in Hs.
  fold (q5 e e e e e) in Hs. cbv zeta in Hs. injection Hs as <-.
  cbn [status E_mean_rel E_mean E_pre]. unfold rel_of. rewrite Hmean.
  destruct (feqb (Fin e) (Fin 0)) eqn:Hz.
  - split; [ reflexivity | ]. split; [ reflexivity | ].
    split; [ reflexivity | discriminate ].
  - assert (He : ~ e == 0) by (q_bool; exact Hz).
    cbn [fdiv]. rewrite (proj2 (Qeq_bool_false e 0) He). cbn [fmul].
    assert (Hr : (0 + e + e + e + e + e) / inject_Z (Z.of_nat 5) / e * 100.0 == 100.0).
    { rewrite Hm. field. exact He. }
    assert (H90 : fgeb (Fin ((0 + e + e + e + e + e) / inject_Z (Z.of_nat 5) / e * 100.0))
                    (Fin 90.0) = true).
    { apply fgeb_Fin. rewrite Hr. discriminate. }
    rewrite H90.
    split; [ reflexivity | ]. split; [ reflexivity | ].
    split; [ discriminate | reflexivity ].
Qed.

Lemma C8_constant_input_is_GREEN_witness :
  exists a, analyze_meal (q5 7.0 7.0 7.0 7.0 7.0) = Ok a /\
    status (an_summary a) = "GREEN" /\
    (E_mean_rel (an_summary a) >= Fin 90.0)%f64 /\
    (feqb (E_pre (an_summary a)) (Fin 0) = true ->
       E_mean_rel (an_summary a) = Fin 100.0) /\
    (feqb (E_pre (an_summary a)) (Fin 0) = false ->
       E_mean_rel (an_summary a) =
         (E_mean (an_summary a) / E_pre (an_summary a) * Fin 100.0)%f64).
Proof. apply (C8_constant_input_is_GREEN 7.0). Defined.

(** Constant input at or above the upper bound, on binary64: E is zero and
    [E_mean_rel] is exactly 100.0. *)
Example constant_above_range_b64 :
  exists a, B64.analyze_meal [30.0; 30.0; 30.0; 30.0; 30.0]%float = Ok a /\
    B64.E_pre (B64.an_summary a) = 0.0%float /\
    B64.E_mean_rel (B64.an_summary a) = 100.0%float /\
    B64.status (B64.an_summary a) = "GREEN".
Proof. by_run. Qed.

(** The two kinds of constant input. *)
Example constant_mid_range :
  exists a, analyze_meal (q5 7.0 7.0 7.0 7.0 7.0) = Ok a /\
    feqb (E_pre (an_summary a)) (Fin 0) = false /\
    status (an_summary a) = "GREEN".
Proof. by_run. Qed.

Example constant_above_range :
  exists a, analyze_meal (q5 30.0 30.0 30.0 30.0 30.0) = Ok a /\
    feqb (E_pre (an_summary a)) (Fin 0) = true /\
    status (an_summary a) = "GREEN".
Proof. by_run. Qed.

(** ** Guidance *)

Lemma guidance_blocks_distinct :
  guidance_GREEN <> guidance_YELLOW /\
  guidance_GREEN <> guidance_RED /\
  guidance_YELLOW <> guidance_RED.
Proof. repeat split; apply String.eqb_neq; vm_compute; reflexivity. Qed.

(** C9.  [detailed_guidance] answers every string: with the GREEN block
    exactly for ["GREEN"], with the YELLOW block exactly for ["YELLOW"],
    and with the RED block for every other string. *)
Theorem C9_guidance_total (status : string) :
  (detailed_guidance status = guidance_GREEN <-> status = "GREEN") /\
  (detailed_guidance status = guidance_YELLOW <-> status = "YELLOW") /\
  (detailed_guidance status = guidance_RED <->
     status <> "GREEN" /\ status <> "YELLOW") /\
  (detailed_guidance status = guidance_GREEN \/
   detailed_guidance status = guidance_YELLOW \/
   detailed_guidance status = guidance_RED).
Proof.
  destruct guidance_blocks_distinct as [Hgy [Hgr Hyr]].
  unfold detailed_guidance.
  destruct (String.eqb_spec status "GREEN") as [-> | HG];
    [ cbn [String.eqb]
    | destruct (String.eqb_spec status "YELLOW") as [-> | HY] ];
    unfold not in *; repeat split; intros;
    repeat match goal with
      | H : _ /\ _ |- _ => destruct H
      end;
    try congruence; try tauto; try discriminate; auto.
Qed.

Lemma C9_guidance_total_witness :
  (detailed_guidance "YELLOW" = guidance_GREEN <-> "YELLOW" = "GREEN") /\
  (detailed_guidance "YELLOW" = guidance_YELLOW <-> "YELLOW" = "YELLOW") /\
  (detailed_guidance "YELLOW" = guidance_RED <->
     "YELLOW" <> "GREEN" /\ "YELLOW" <> "YELLOW") /\
  (detailed_guidance "YELLOW" = guidance_GREEN \/
   detailed_guidance "YELLOW" = guidance_YELLOW \/
   detailed_guidance "YELLOW" = guidance_RED).
Proof. apply (C9_guidance_total "YELLOW"). Defined.

Example guidance_of_unknown_labels :
  detailed_guidance "RED" = guidance_RED /\
  detailed_guidance "PURPLE" = guidance_RED /\
  detailed_guidance "green" = guidance_RED /\
  detailed_guidance "" = guidance_RED.
Proof. repeat split; reflexivity. Qed.

(** ** Summary statistics *)

Section Statistics.

Lemma fold_min_Fin (rest : list Q) (a : Q) :
  exists m, fold_left np_minimum (map Fin rest) (Fin a) = Fin m /\
    In m (a :: rest) /\ m <= a /\ (forall x, In x rest -> m <= x).
Proof.
  revert a. induction rest as [ | x rest IH ]; intros a.
  - exists a. cbn. repeat split; try tauto; auto with qarith.
  - cbn [map fold_left]. unfold np_minimum at 2. cbn [is_nan orb].
    destruct (fleb (Fin a) (Fin x)) eqn:Hax; q_bool.
    + destruct (IH a) as [m [Hm [Hin [Hle Hall]]]].
      exists m. split; [ exact Hm | ]. repeat split.
      * destruct Hin as [ <- | Hin ]; [ left; reflexivity | right; right; exact Hin ].
      * exact Hle.
      * intros y [ <- | Hy ]; [ lra | apply Hall, Hy ].
    + destruct (IH x) as [m [Hm [Hin [Hle Hall]]]].
      exists m. split; [ exact Hm | ]. repeat split.
      * right; exact Hin.
      * lra.
      * intros y [ <- | Hy ]; [ exact Hle | apply Hall, Hy ].
Qed.

Lemma fold_fadd_Fin (qs : list Q) (acc : Q) :
  fold_left fadd (map Fin qs) (Fin acc) = Fin (fold_left Qplus qs acc).
Proof.
  revert acc. induction qs as [ | x qs IH ]; intros acc; cbn; [ reflexivity | ].
  apply IH.
Qed.

Lemma inject_nat_succ (n : nat) :
  inject_Z (Z.of_nat (S n)) == inject_Z (Z.of_nat n) + 1.
Proof.
  replace (Z.of_nat (S n)) with (Z.of_nat n + 1)%Z by lia.
  rewrite inject_Z_plus. reflexivity.
Qed.

Lemma fold_Qplus_lower (qs : list Q) (acc m : Q) :
  (forall x, In x qs -> m <= x) ->
  acc + m * inject_Z (Z.of_nat (List.length qs)) <= fold_left Qplus qs acc.
Proof.
  revert acc. induction qs as [ | x qs IH ]; intros acc Hall.
  - cbn [fold_left List.length Z.of_nat]. change (inject_Z 0) with 0. lra.
  - cbn [fold_left List.length]. rewrite inject_nat_succ.
    assert (Hx : m <= x) by (apply Hall; left; reflexivity).
    assert (IH' := IH (acc + x) (fun y Hy => Hall y (or_intror Hy))).
    lra.
Qed.

Lemma inject_nat_pos (n : nat) : 0 < inject_Z (Z.of_nat (S n)).
Proof. unfold Qlt. cbn [Qnum Qden inject_Z]. lia. Qed.

End Statistics.





(** The same through the whole analysis, at glucose 7.0 five times. *)
Example mean_below_minimum_from_glucose :
  exists a, B64.analyze_meal [7.0; 7.0; 7.0; 7.0; 7.0]%float = Ok a /\
    PrimFloat.leb (B64.E_min (B64.an_summary a))
                  (B64.E_mean (B64.an_summary a)) = false.
Proof. by_run. Qed.



(** The same five values on binary64, where their sum and mean are exact. *)
Example summary_of_five_values_b64 :
  exists s, B64.classify_with_reason [0.75; 0.5; 1.0; 0.25; 0.625]%float = Ok s /\
    B64.E_pre s = 0.75%float /\
    B64.E_min s = 0.25%float /\
    B64.E_mean s = 0.625%float.
Proof. by_run. Qed.

(** An infinity in the sequence is covered; a NaN is not, because [np.min]
    passes it on and no comparison with it holds. *)
Example minimum_with_NaN :
  exists s, classify_with_reason [Fin 0.5; NaN; Fin 0.25] = Ok s /\
    E_min s = NaN /\ fleb (E_min s) (E_pre s) = false.
Proof. by_run. Qed.

(** * Further properties of the code *)

(** ** The range and the direction of the index mapper *)

Section MapperBounds.

Lemma clamp_range (x : Q) : 0 <= Qmin (Qmax x 0.0) 1.0 <= 1.
Proof.
  destruct (Q.max_spec x 0.0) as [ [? ?] | [? ?] ];
    destruct (Q.min_spec (Qmax x 0.0) 1.0) as [ [? ?] | [? ?] ]; lra.
Qed.

Lemma clamp_monotone (x y : Q) :
  x <= y -> Qmin (Qmax x 0.0) 1.0 <= Qmin (Qmax y 0.0) 1.0.
Proof.
  intro H.
  destruct (Q.max_spec x 0.0) as [ [? ?] | [? ?] ];
    destruct (Q.min_spec (Qmax x 0.0) 1.0) as [ [? ?] | [? ?] ];
    destruct (Q.max_spec y 0.0) as [ [? ?] | [? ?] ];
    destruct (Q.min_spec (Qmax y 0.0) 1.0) as [ [? ?] | [? ?] ]; lra.
Qed.

Lemma T_val_range (lo hi g : Q) : 0 <= T_val lo hi g <= 1.
Proof. apply clamp_range. Qed.

Lemma E_val_range (lo hi g : Q) : 0 <= E_val lo hi g <= 1.
Proof.
  unfold E_val. destruct (T_val_range lo hi g) as [H0 H1]. split; nra.
Qed.

(** With distinct finite bounds a finite reading has a finite [T] and [E]. *)
Lemma T_of_finite (lo hi g : Q) :
  ~ hi == lo ->
  exists t, T_of (Fin lo) (Fin hi) (Fin g) = Fin t /\ t == T_val lo hi g.
Proof.
  intro Hb. unfold T_of, T_val. cbn [fsub fopp fadd fdiv].
  assert (Hz : Qeq_bool (hi + - lo) 0 = false) by (apply Qeq_bool_false; lra).
  rewrite Hz. apply np_clip_Fin.
Qed.

Lemma E_of_T_of_finite (lo hi g : Q) :
  ~ hi == lo ->
  exists t e, T_of (Fin lo) (Fin hi) (Fin g) = Fin t /\
    E_of_T (T_of (Fin lo) (Fin hi) (Fin g)) = Fin e /\
    t == T_val lo hi g /\ e == E_val lo hi g.
Proof.
  intro Hb. destruct (T_of_finite lo hi g Hb) as [t [HT Ht]].
  exists t, (1.0 - t * t). rewrite HT, E_of_T_Fin.
  repeat split; try assumption. unfold E_val. rewrite Ht. reflexivity.
Qed.

Lemma T_val_monotone (lo hi g1 g2 : Q) :
  lo < hi -> g1 <= g2 -> T_val lo hi g1 <= T_val lo hi g2.
Proof.
  intros Hb Hg. apply clamp_monotone.
  apply Qmult_le_compat_r; [ lra | ].
  apply Qlt_le_weak, Qinv_lt_0_compat. lra.
Qed.

Lemma E_val_antitone (lo hi g1 g2 : Q) :
  lo < hi -> g1 <= g2 -> E_val lo hi g2 <= E_val lo hi g1.
Proof.
  intros Hb Hg. unfold E_val.
  assert (H := T_val_monotone lo hi g1 g2 Hb Hg).
  destruct (T_val_range lo hi g1), (T_val_range lo hi g2). nra.
Qed.

End MapperBounds.

(** X1.  With the default bounds every finite reading, however low or
    high, is mapped to a finite [T] and a finite [E], both within
    [[0, 1]]. *)
Theorem X1_T_and_E_stay_in_unit_interval (gs : list Q) (i : nat) (g : Q) :
  nth_error gs i = Some g ->
  exists t e : Q,
    nth_error (snd (compute_T_E (map Fin gs) g_min_default g_max_default)) i
      = Some (Fin t) /\
    nth_error (fst (compute_T_E (map Fin gs) g_min_default g_max_default)) i
      = Some (Fin e) /\
    0 <= t <= 1 /\ 0 <= e <= 1.
Proof.
  intros Hg.
  assert (Hb : ~ 25.0 == 3.0) by discriminate.
  destruct (E_of_T_of_finite 3.0 25.0 g Hb) as [t [e [HT [HE [Ht He]]]]].
  destruct (compute_T_E_nth (map Fin gs) g_min_default g_max_default i (Fin g))
    as [HnT HnE]; [ apply map_nth_error, Hg | ].
  unfold g_min_default, g_max_default in *.
  exists t, e. rewrite HnT, HnE, HE, HT.
  split; [ reflexivity | ]. split; [ reflexivity | ].
  rewrite Ht, He. split; [ apply T_val_range | apply E_val_range ].
Qed.

Lemma X1_T_and_E_stay_in_unit_interval_witness :
  exists t e : Q,
    nth_error (snd (compute_T_E (map Fin [0.0; 40.0; 7.5])
                      g_min_default g_max_default)) 1 = Some (Fin t) /\
    nth_error (fst (compute_T_E (map Fin [0.0; 40.0; 7.5])
                      g_min_default g_max_default)) 1 = Some (Fin e) /\
    0 <= t <= 1 /\ 0 <= e <= 1.
Proof.
  apply (X1_T_and_E_stay_in_unit_interval [0.0; 40.0; 7.5] 1 40.0).
  reflexivity.
Defined.

(** X2.  With the default bounds the mapping is monotone: of two finite
    readings of one input, the higher one has the larger (or equal) [T]
    and the smaller (or equal) [E]. *)
Theorem X2_higher_glucose_lower_E
    (gs : list Q) (i j : nat) (gi gj : Q) :
  nth_error gs i = Some gi ->
  nth_error gs j = Some gj ->
  gi <= gj ->
  exists ti tj ei ej : Q,
    nth_error (snd (compute_T_E (map Fin gs) g_min_default g_max_default)) i
      = Some (Fin ti) /\
    nth_error (snd (compute_T_E (map Fin gs) g_min_default g_max_default)) j
      = Some (Fin tj) /\
    nth_error (fst (compute_T_E (map Fin gs) g_min_default g_max_default)) i
      = Some (Fin ei) /\
    nth_error (fst (compute_T_E (map Fin gs) g_min_default g_max_default)) j
      = Some (Fin ej) /\
    ti <= tj /\ ej <= ei.
Proof.
  intros Hi Hj Hle.
  assert (Hb : 3.0 < 25.0) by reflexivity.
  assert (Hne : ~ 25.0 == 3.0) by discriminate.
  destruct (E_of_T_of_finite 3.0 25.0 gi Hne) as [ti [ei [HTi [HEi [Hti Hei]]]]].
  destruct (E_of_T_of_finite 3.0 25.0 gj Hne) as [tj [ej [HTj [HEj [Htj Hej]]]]].
  destruct (compute_T_E_nth (map Fin gs) g_min_default g_max_default i (Fin gi))
    as [HnTi HnEi]; [ apply map_nth_error, Hi | ].
  destruct (compute_T_E_nth (map Fin gs) g_min_default g_max_default j (Fin gj))
    as [HnTj HnEj]; [ apply map_nth_error, Hj | ].
  unfold g_min_default, g_max_default in *.
  exists ti, tj, ei, ej.
  rewrite HnTi, HnTj, HnEi, HnEj, HEi, HEj, HTi, HTj.
  repeat split; try reflexivity.
  - rewrite Hti, Htj. apply T_val_monotone; assumption.
  - rewrite Hei, Hej. apply E_val_antitone; assumption.
Qed.

Lemma X2_higher_glucose_lower_E_witness :
  exists ti tj ei ej : Q,
    nth_error (snd (compute_T_E (map Fin [4.0; 6.0; 7.0; 6.5; 5.5])
                      g_min_default g_max_default)) 0 = Some (Fin ti) /\
    nth_error (snd (compute_T_E (map Fin [4.0; 6.0; 7.0; 6.5; 5.5])
                      g_min_default g_max_default)) 2 = Some (Fin tj) /\
    nth_error (fst (compute_T_E (map Fin [4.0; 6.0; 7.0; 6.5; 5.5])
                      g_min_default g_max_default)) 0 = Some (Fin ei) /\
    nth_error (fst (compute_T_E (map Fin [4.0; 6.0; 7.0; 6.5; 5.5])
                      g_min_default g_max_default)) 2 = Some (Fin ej) /\
    ti <= tj /\ ej <= ei.
Proof.
  apply (X2_higher_glucose_lower_E [4.0; 6.0; 7.0; 6.5; 5.5] 0 2 4.0 7.0).
  - reflexivity.
  - reflexivity.
  - discriminate.
Defined.

(** X3.  Equal bounds are not refused.  The division by zero yields an
    infinity that the clamp brings back: a reading above the common bound
    gets [T = 1] and [E = 0], one below it [T = 0] and [E = 1]; a reading
    equal to the bound gives [0/0], and both [T] and [E] are NaN. *)
Theorem X3_equal_bounds (gs : list Q) (b : Q) (i : nat) (g : Q) :
  nth_error gs i = Some g ->
  exists t e : f64,
    nth_error (snd (compute_T_E (map Fin gs) (Fin b) (Fin b))) i = Some t /\
    nth_error (fst (compute_T_E (map Fin gs) (Fin b) (Fin b))) i = Some e /\
    (b < g -> (t =~ Fin 1)%f64 /\ (e =~ Fin 0)%f64) /\
    (g < b -> (t =~ Fin 0)%f64 /\ (e =~ Fin 1)%f64) /\
    (g == b -> t = NaN /\ e = NaN).
Proof.
  intros Hg.
  destruct (compute_T_E_nth (map Fin gs) (Fin b) (Fin b) i (Fin g))
    as [HnT HnE]; [ apply map_nth_error, Hg | ].
  eexists _, _. split; [ exact HnT | ]. split; [ exact HnE | ].
  unfold E_of_T, T_of. cbn [fsub fopp fadd fdiv].
  assert (Hz : Qeq_bool (b + - b) 0 = true) by (apply Qeq_bool_iff; lra).
  rewrite Hz.
  destruct (Qeq_bool (g + - b) 0) eqn:Hgb.
  - apply Qeq_bool_iff in Hgb.
    repeat split; intros; try lra; reflexivity.
  - apply Qeq_bool_false in Hgb. unfold Qneg.
    destruct (Qle_bool 0 (g + - b)) eqn:Hs.
    + apply Qle_bool_iff in Hs.
      repeat split; intros; try lra; reflexivity.
    + assert (Hlt : g + - b < 0).
      { apply Qnot_le_lt. intro H. apply Qle_bool_iff in H. congruence. }
      repeat split; intros; try lra; reflexivity.
Qed.

Lemma X3_equal_bounds_witness :
  exists t e : f64,
    nth_error (snd (compute_T_E (map Fin [4.0; 6.0; 5.0]) (Fin 5.0) (Fin 5.0))) 2
      = Some t /\
    nth_error (fst (compute_T_E (map Fin [4.0; 6.0; 5.0]) (Fin 5.0) (Fin 5.0))) 2
      = Some e /\
    (5.0 < 5.0 -> (t =~ Fin 1)%f64 /\ (e =~ Fin 0)%f64) /\
    (5.0 < 5.0 -> (t =~ Fin 0)%f64 /\ (e =~ Fin 1)%f64) /\
    (5.0 == 5.0 -> t = NaN /\ e = NaN).
Proof. apply (X3_equal_bounds [4.0; 6.0; 5.0] 5.0 2 5.0). reflexivity. Defined.

(** ** What the classifier can raise *)

(** X5.  The classifier fails in one way only: on the empty sequence, with
    the [IndexError] of [E[0]].  On every other input, whatever numbers it
    holds (zeros, infinities and NaN included), it returns: the division
    by [E_pre] never raises [ZeroDivisionError] and [np.min] never sees an
    empty array. *)
Theorem X5_classifier_raises_only_on_empty (E : list f64) (e : exn) :
  classify_with_reason E = Raise e -> E = [] /\ e = IndexError.
Proof.
  destruct E as [ | e0 rest ].
  - rewrite classify_nil. intros [= <-]. split; reflexivity.
  - rewrite classify_cons. discriminate.
Qed.

Lemma X5_classifier_raises_only_on_empty_witness :
  @nil f64 = [] /\ IndexError = IndexError.
Proof. apply (X5_classifier_raises_only_on_empty [] IndexError). reflexivity. Defined.

(** ** Status, reason, guidance and icon go together *)

(** X6.  Whatever the classifier returns is one of three consistent
    packages: the status label, its own reason sentence, its own guidance
    block and an icon.  In particular the subscript of the icon dictionary
    never meets a missing key. *)
Theorem X6_status_package (E : list f64) (s : summary) :
  classify_with_reason E = Ok s ->
  (status s = "GREEN" /\ reason s = reason_GREEN /\
   detailed_guidance (status s) = guidance_GREEN /\
   dict_get icon_table (status s) = Some "🟢") \/
  (status s = "YELLOW" /\ reason s = reason_YELLOW /\
   detailed_guidance (status s) = guidance_YELLOW /\
   dict_get icon_table (status s) = Some "🟡") \/
  (status s = "RED" /\ reason s = reason_RED /\
   detailed_guidance (status s) = guidance_RED /\
   dict_get icon_table (status s) = Some "🔴").
Proof.
  intros H. destruct (classify_status_reason E s H) as [-> ->].
  destruct (fgeb (E_mean_rel s) (Fin 90.0)).
  - left. repeat split; reflexivity.
  - destruct (fgeb (E_mean_rel s) (Fin 75.0)).
    + right; left. repeat split; reflexivity.
    + right; right. repeat split; reflexivity.
Qed.

Lemma X6_status_package_witness :
  exists s, classify_with_reason (q5 1 0.75 0.75 0.75 0.5) = Ok s /\
  ((status s = "GREEN" /\ reason s = reason_GREEN /\
    detailed_guidance (status s) = guidance_GREEN /\
    dict_get icon_table (status s) = Some "🟢") \/
   (status s = "YELLOW" /\ reason s = reason_YELLOW /\
    detailed_guidance (status s) = guidance_YELLOW /\
    dict_get icon_table (status s) = Some "🟡") \/
   (status s = "RED" /\ reason s = reason_RED /\
    detailed_guidance (status s) = guidance_RED /\
    dict_get icon_table (status s) = Some "🔴")).
Proof.
  eexists. split; [ vm_compute; reflexivity | ].
  apply (X6_status_package (q5 1 0.75 0.75 0.75 0.5)).
  vm_compute; reflexivity.
Defined.

(** A label outside the three has no icon: the guard above is needed. *)
Example icon_of_unknown_label : dict_get icon_table "PURPLE" = None.
Proof. reflexivity. Qed.

(** X7.  The status is monotone in [E_mean_rel]: of two classifications,
    the one with the larger (or equal) relative mean never has the worse
    status. *)
Theorem X7_status_monotone (E1 E2 : list f64) (s1 s2 : summary) :
  classify_with_reason E1 = Ok s1 ->
  classify_with_reason E2 = Ok s2 ->
  (E_mean_rel s1 <= E_mean_rel s2)%f64 ->
  (severity (status s2) <= severity (status s1))%nat.
Proof.
  intros H1 H2 Hle.
  destruct (classify_status_reason E1 s1 H1) as [-> _].
  destruct (classify_status_reason E2 s2 H2) as [-> _].
  unfold fgeb.
  destruct (fleb (Fin 90.0) (E_mean_rel s1)) eqn:A1.
  - rewrite (fleb_trans _ _ _ A1 Hle). cbn. lia.
  - destruct (fleb (Fin 75.0) (E_mean_rel s1)) eqn:B1.
    + destruct (fleb (Fin 90.0) (E_mean_rel s2)); [ cbn; lia | ].
      rewrite (fleb_trans _ _ _ B1 Hle). cbn. lia.
    + destruct (fleb (Fin 90.0) (E_mean_rel s2)); [ cbn; lia | ].
      destruct (fleb (Fin 75.0) (E_mean_rel s2)); cbn; lia.
Qed.

Lemma X7_status_monotone_witness :
  exists s1 s2,
    classify_with_reason (q5 1 0.75 0.75 0.75 0.5) = Ok s1 /\
    classify_with_reason (q5 1 0.9 0.9 0.9 0.8) = Ok s2 /\
    status s1 = "YELLOW" /\ status s2 = "GREEN" /\
    (severity (status s2) <= severity (status s1))%nat.
Proof.
  eexists _, _.
  split; [ vm_compute; reflexivity | ]. split; [ vm_compute; reflexivity | ].
  split; [ reflexivity | ]. split; [ reflexivity | ].
  apply (X7_status_monotone (q5 1 0.75 0.75 0.75 0.5) (q5 1 0.9 0.9 0.9 0.8));
    vm_compute; reflexivity.
Defined.

(** ** The analysis of finite readings *)

Section FiniteReadings.

(** [E] of finite readings, with the default bounds: finite entries, each
    the exact value of the mapping. *)
Lemma E_list_finite (gs : list Q) :
  exists es : list Q,
    fst (compute_T_E (map Fin gs) g_min_default g_max_default) = map Fin es /\
    Forall2 (fun g e => e == E_val 3.0 25.0 g) gs es.
Proof.
  rewrite compute_T_E_maps. cbn [fst].
  induction gs as [ | g gs [es [IH1 IH2]] ].
  - exists []. split; [ reflexivity | constructor ].
  - assert (Hne : ~ 25.0 == 3.0) by discriminate.
    destruct (E_of_T_of_finite 3.0 25.0 g Hne) as [t [e [_ [HE [_ He]]]]].
    exists (e :: es). cbn [map]. unfold g_min_default, g_max_default in *.
    rewrite HE, IH1. split; [ reflexivity | constructor; assumption ].
Qed.

Lemma Forall2_E_val_in (gs es : list Q) (e : Q) :
  Forall2 (fun g e => e == E_val 3.0 25.0 g) gs es ->
  In e es -> exists g, In g gs /\ e == E_val 3.0 25.0 g.
Proof.
  induction 1 as [ | g e' gs es Hge _ IH ]; intros Hin; [ destruct Hin | ].
  destruct Hin as [ <- | Hin ].
  - exists g. split; [ left; reflexivity | exact Hge ].
  - destruct (IH Hin) as [g' [Hg' He]]. exists g'. split; [ right | ]; assumption.
Qed.

Lemma fold_Qplus_upper (qs : list Q) (acc m : Q) :
  (forall x, In x qs -> x <= m) ->
  fold_left Qplus qs acc <= acc + m * inject_Z (Z.of_nat (List.length qs)).
Proof.
  revert acc. induction qs as [ | x qs IH ]; intros acc Hall.
  - cbn [fold_left List.length Z.of_nat]. change (inject_Z 0) with 0. lra.
  - cbn [fold_left List.length]. rewrite inject_nat_succ.
    assert (Hx : x <= m) by (apply Hall; left; reflexivity).
    assert (IH' := IH (acc + x) (fun y Hy => Hall y (or_intror Hy))).
    lra.
Qed.

Lemma mean_lower (qs : list Q) (m : Q) :
  qs <> [] -> (forall x, In x qs -> m <= x) ->
  m <= Qsum qs / inject_Z (Z.of_nat (List.length qs)).
Proof.
  intros Hne Hall. destruct qs as [ | q qs ]; [ congruence | ].
  apply Qle_shift_div_l; [ apply inject_nat_pos | ].
  assert (H := fold_Qplus_lower (q :: qs) 0 m Hall). unfold Qsum. lra.
Qed.

Lemma mean_upper (qs : list Q) (m : Q) :
  qs <> [] -> (forall x, In x qs -> x <= m) ->
  Qsum qs / inject_Z (Z.of_nat (List.length qs)) <= m.
Proof.
  intros Hne Hall. destruct qs as [ | q qs ]; [ congruence | ].
  apply Qle_shift_div_r; [ apply inject_nat_pos | ].
  assert (H := fold_Qplus_upper (q :: qs) 0 m Hall). unfold Qsum. lra.
Qed.

(** The classifier on finite values, in closed form. *)
Lemma classify_Fin (e0 : Q) (es : list Q) :
  exists (s : summary) (mn r : Q),
    classify_with_reason (map Fin (e0 :: es)) = Ok s /\
    E_pre s = Fin e0 /\
    E_min s = Fin mn /\ In mn (e0 :: es) /\
    E_mean s =
      Fin (Qsum (e0 :: es) / inject_Z (Z.of_nat (List.length (e0 :: es)))) /\
    E_mean_rel s = Fin r /\
    (e0 == 0 -> r == 100) /\
    (~ e0 == 0 ->
     r == Qsum (e0 :: es) / inject_Z (Z.of_nat (List.length (e0 :: es)))
          / e0 * 100).
Proof.
  destruct (fold_min_Fin es e0) as [mn [Hmin [Hin _]]].
  set (n := inject_Z (Z.of_nat (List.length (e0 :: es)))).
  assert (Hmean : np_mean (map Fin (e0 :: es)) = Fin (Qsum (e0 :: es) / n)).
  { unfold np_mean, np_sum, Qsum. rewrite fold_fadd_Fin, length_map.
    cbn [fdiv List.length]. rewrite inject_nat_nonzero. reflexivity. }
  cbn [map]. rewrite classify_cons. cbv zeta.
  change (Fin e0 :: map Fin es) with (map Fin (e0 :: es)).
  unfold rel_of. rewrite Hmean.
  destruct (feqb (Fin e0) (Fin 0)) eqn:Hz; q_bool.
  - eexists _, mn, 100.0. split; [ reflexivity | ].
    cbn [E_pre E_min E_mean E_mean_rel].
    repeat split; try assumption; try reflexivity. intro; contradiction.
  - cbn [fdiv]. rewrite (proj2 (Qeq_bool_false e0 0) Hz). cbn [fmul].
    eexists _, mn, _. split; [ reflexivity | ].
    cbn [E_pre E_min E_mean E_mean_rel].
    repeat split; try assumption; try reflexivity.
    + intro; contradiction.
    + intros _. change 100.0 with (1000 # 10). change 100 with (100 # 1).
      setoid_replace (1000 # 10) with (100 # 1) by reflexivity. reflexivity.
Qed.

(** The analysis of finite readings, in closed form. *)
Lemma analyze_finite (g0 : Q) (gs : list Q) :
  exists (a : analysis) (e0 : Q) (es : list Q) (mn r : Q),
    analyze_meal (map Fin (g0 :: gs)) = Ok a /\
    an_E a = map Fin (e0 :: es) /\
    e0 == E_val 3.0 25.0 g0 /\
    Forall2 (fun g e => e == E_val 3.0 25.0 g) gs es /\
    E_pre (an_summary a) = Fin e0 /\
    E_min (an_summary a) = Fin mn /\ In mn (e0 :: es) /\
    E_mean (an_summary a) =
      Fin (Qsum (e0 :: es) / inject_Z (Z.of_nat (List.length (e0 :: es)))) /\
    E_mean_rel (an_summary a) = Fin r /\
    (e0 == 0 -> r == 100) /\
    (~ e0 == 0 ->
     r == Qsum (e0 :: es) / inject_Z (Z.of_nat (List.length (e0 :: es)))
          / e0 * 100) /\
    classify_with_reason (an_E a) = Ok (an_summary a).
Proof.
  destruct (E_list_finite (g0 :: gs)) as [es' [HE HF]].
  inversion HF as [ | g e0 gs' es Hge HF' Heq1 Heq2 ]; subst.
  destruct (classify_Fin e0 es) as [s [mn [r [Hs [Hpre [Hmin [Hin [Hmean [Hrel [Hr0 Hr1]]]]]]]]]].
  rewrite <- HE in Hs.
  destruct (analyze_meal_ok _ _ Hs) as [a [Ha [Hsum [HT [HEa _]]]]].
  assert (HEa' : an_E a = map Fin (e0 :: es)).
  { rewrite HEa, HT, <- HE, compute_T_E_maps. reflexivity. }
  exists a, e0, es, mn, r. rewrite Hsum, HEa'.
  rewrite HE in Hs.
  repeat split; assumption.
Qed.

Lemma E_val_entries_range (g0 : Q) (gs : list Q) (e0 : Q) (es : list Q) :
  e0 == E_val 3.0 25.0 g0 ->
  Forall2 (fun g e => e == E_val 3.0 25.0 g) gs es ->
  forall x, In x (e0 :: es) -> 0 <= x <= 1.
Proof.
  intros H0 HF x [ <- | Hx ].
  - rewrite H0. apply E_val_range.
  - destruct (Forall2_E_val_in gs es x HF Hx) as [g [_ ->]]. apply E_val_range.
Qed.

End FiniteReadings.

Lemma ratio_at_least (S n e0 : Q) :
  0 < n -> 0 < e0 -> e0 <= S / n -> 100 <= S / n / e0 * 100.
Proof.
  intros Hn He H.
  assert (H1 : 1 <= S / n / e0) by (apply Qle_shift_div_l; [ exact He | lra ]).
  lra.
Qed.

Lemma ratio_nonneg (S n e0 : Q) :
  0 < e0 -> 0 <= S / n -> 0 <= S / n / e0 * 100.
Proof.
  intros He H.
  assert (H1 : 0 <= S / n / e0) by (apply Qle_shift_div_l; [ exact He | lra ]).
  lra.
Qed.

(** X8.  With the default bounds, the summary of every non-empty sequence
    of finite readings consists of finite numbers: [E_pre], [E_min] and
    [E_mean] lie in [[0, 1]] and [E_mean_rel] is not negative.  No NaN and
    no infinity reaches the thresholds. *)
Theorem X8_summary_is_finite_and_bounded (g0 : Q) (gs : list Q) :
  exists (a : analysis) (pre mn mean rel : Q),
    analyze_meal (map Fin (g0 :: gs)) = Ok a /\
    E_pre (an_summary a) = Fin pre /\ 0 <= pre <= 1 /\
    E_min (an_summary a) = Fin mn /\ 0 <= mn <= 1 /\
    E_mean (an_summary a) = Fin mean /\ 0 <= mean <= 1 /\
    E_mean_rel (an_summary a) = Fin rel /\ 0 <= rel.
Proof.
  destruct (analyze_finite g0 gs)
    as (a & e0 & es & mn & r & Ha & _ & He0 & HF & Hpre & Hmin & Hin & Hmean
        & Hrel & Hr0 & Hr1 & _).
  assert (Hrange := E_val_entries_range g0 gs e0 es He0 HF).
  set (n := inject_Z (Z.of_nat (List.length (e0 :: es)))) in *.
  assert (Hn : 0 < n) by apply inject_nat_pos.
  assert (Hm0 : 0 <= Qsum (e0 :: es) / n).
  { apply mean_lower; [ discriminate | ]. intros x Hx. apply Hrange, Hx. }
  assert (Hm1 : Qsum (e0 :: es) / n <= 1).
  { apply mean_upper; [ discriminate | ]. intros x Hx. apply Hrange, Hx. }
  exists a, e0, mn, (Qsum (e0 :: es) / n), r.
  split; [ exact Ha | ]. split; [ exact Hpre | ].
  split; [ apply Hrange; left; reflexivity | ].
  split; [ exact Hmin | ]. split; [ apply Hrange, Hin | ].
  split; [ exact Hmean | ]. split; [ split; assumption | ].
  split; [ exact Hrel | ].
  destruct (Qeq_dec e0 0) as [Hz | Hz].
  - rewrite (Hr0 Hz). discriminate.
  - rewrite (Hr1 Hz). apply ratio_nonneg; [ | exact Hm0 ].
    assert (H := Hrange e0 (or_introl eq_refl)). lra.
Qed.

(** X9.  A meal whose later readings never exceed the first one is GREEN:
    its [E_mean_rel] is a finite number of at least 90.0. *)
Theorem X9_readings_not_above_baseline_are_GREEN (g0 : Q) (gs : list Q) :
  (forall g, In g gs -> g <= g0) ->
  exists (a : analysis) (rel : Q),
    analyze_meal (map Fin (g0 :: gs)) = Ok a /\
    E_mean_rel (an_summary a) = Fin rel /\ 90.0 <= rel /\
    status (an_summary a) = "GREEN".
Proof.
  intros Hall.
  destruct (analyze_finite g0 gs)
    as (a & e0 & es & mn & r & Ha & _ & He0 & HF & _ & _ & _ & _
        & Hrel & Hr0 & Hr1 & Hcls).
  assert (Hrange := E_val_entries_range g0 gs e0 es He0 HF).
  set (n := inject_Z (Z.of_nat (List.length (e0 :: es)))) in *.
  assert (Hn : 0 < n) by apply inject_nat_pos.
  assert (Hlow : forall x, In x (e0 :: es) -> e0 <= x).
  { intros x [ <- | Hx ]; [ lra | ].
    destruct (Forall2_E_val_in gs es x HF Hx) as [g [Hg Hxg]].
    rewrite Hxg, He0. apply E_val_antitone; [ reflexivity | apply Hall, Hg ]. }
  assert (Hr : 100 <= r).
  { destruct (Qeq_dec e0 0) as [Hz | Hz].
    - rewrite (Hr0 Hz). discriminate.
    - rewrite (Hr1 Hz). apply ratio_at_least; [ exact Hn | | ].
      + assert (H := Hrange e0 (or_introl eq_refl)). lra.
      + apply mean_lower; [ discriminate | exact Hlow ]. }
  exists a, r. split; [ exact Ha | ]. split; [ exact Hrel | ].
  split; [ lra | ].
  destruct (classify_status_reason _ _ Hcls) as [-> _].
  rewrite Hrel.
  assert (H90 : fgeb (Fin r) (Fin 90.0) = true) by (apply fgeb_Fin; lra).
  rewrite H90. reflexivity.
Qed.

Lemma X9_readings_not_above_baseline_are_GREEN_witness :
  exists (a : analysis) (rel : Q),
    analyze_meal (map Fin [7.0; 6.0; 5.5; 7.0; 4.0]) = Ok a /\
    E_mean_rel (an_summary a) = Fin rel /\ 90.0 <= rel /\
    status (an_summary a) = "GREEN".
Proof.
  apply (X9_readings_not_above_baseline_are_GREEN 7.0 [6.0; 5.5; 7.0; 4.0]).
  intros g [ <- | [ <- | [ <- | [ <- | [] ] ] ] ]; discriminate.
Defined.

(** A reading under the baseline does push the relative mean over 100. *)
Example relative_mean_over_100 :
  exists a, analyze_meal (q5 20.0 4.0 4.0 4.0 4.0) = Ok a /\
    (Fin 100 < E_mean_rel (an_summary a))%f64 /\
    status (an_summary a) = "GREEN".
Proof. by_run. Qed.

(** ** Step changes of finite sequences *)

Lemma item_Fin (es : list Q) (i : nat) (x : Q) :
  nth_error es i = Some x -> item (map Fin es) i = Fin x.
Proof.
  intro H. unfold item. apply nth_error_nth. apply map_nth_error, H.
Qed.

Lemma dE_at_Fin (es : list Q) (i : nat) (prev cur : Q) :
  nth_error es (i - 1) = Some prev ->
  nth_error es i = Some cur ->
  ~ prev == 0 ->
  dE_at (map Fin es) i = Fin ((cur - prev) / prev * 100.0).
Proof.
  intros Hp Hc Hz. unfold dE_at.
  rewrite (item_Fin es i cur Hc), (item_Fin es (i - 1) prev Hp).
  cbn [fsub fopp fadd fdiv]. rewrite (proj2 (Qeq_bool_false prev 0) Hz).
  reflexivity.
Qed.

(** ** When the net shift is a number *)

Section NetShift.

Lemma E_val_zero_iff (g : Q) : E_val 3.0 25.0 g == 0 <-> 25.0 <= g.
Proof.
  unfold E_val, T_val.
  set (x := (g - 3.0) / (25.0 - 3.0)).
  assert (Hx : x * 22 == g - 3) by (unfold x; field).
  destruct (Q.max_spec x 0.0) as [ [? Hmax] | [? Hmax] ];
    destruct (Q.min_spec (Qmax x 0.0) 1.0) as [ [? Hmin] | [? Hmin] ];
    rewrite Hmin; try rewrite Hmax; split; intro; nra.
Qed.

Lemma Forall2_nth_error_l {A B : Type} (R : A -> B -> Prop)
    (l : list A) (l' : list B) (i : nat) (x : A) :
  Forall2 R l l' -> nth_error l i = Some x ->
  exists y, nth_error l' i = Some y /\ R x y.
Proof.
  intro H. revert i. induction H as [ | a b l l' Hab _ IH ]; intros [ | i ] Hi;
    try discriminate.
  - injection Hi as <-. exists b. split; [ reflexivity | exact Hab ].
  - apply IH, Hi.
Qed.

Lemma fadd_finite (x y : f64) : finite x -> finite y -> finite (x + y)%f64.
Proof. destruct x, y; cbn; tauto. Qed.

Lemma py_sum_finite (xs : list f64) : Forall finite xs -> finite (py_sum xs).
Proof.
  unfold py_sum. assert (H0 : finite (Fin 0)) by exact I. revert H0.
  generalize (Fin 0). induction xs as [ | x xs IH ]; intros acc Hacc Hall.
  - exact Hacc.
  - cbn [fold_left]. inversion Hall; subst. apply IH; [ | assumption ].
    apply fadd_finite; assumption.
Qed.

Lemma analyze_meal_fields (glucose : list f64) (a : analysis) :
  analyze_meal glucose = Ok a ->
  an_dE a = compute_dE_pct (an_E a) /\
  an_steps a = tl (an_dE a) /\
  an_net a = py_sum (not_None (an_steps a)).
Proof.
  unfold analyze_meal. rewrite compute_T_E_maps.
  destruct (classify_with_reason _) as [s | e]; cbn [bind]; [ | discriminate ].
  intros [= <-]. cbn [an_E an_dE an_steps an_net]. repeat split.
Qed.

End NetShift.

(** ** The steps the handler passes on *)

Lemma steps_nth (E : list f64) (i : nat) :
  (S i < List.length E)%nat ->
  nth_error (tl (compute_dE_pct E)) i = Some (Some (dE_at E (S i))).
Proof.
  intros Hi. unfold compute_dE_pct. cbn [app tl].
  rewrite (map_nth_error (fun k => Some (dE_at E k)) i (seq 1 (List.length E - 1))
             (d := S i)); [ reflexivity | ].
  rewrite nth_error_nth' with (d := O) by (rewrite length_seq; lia).
  rewrite seq_nth by lia. reflexivity.
Qed.

(** X4.  In the handler the step list has one entry per reading, its first
    entry is [None] and no other entry is: [dE[1:]] holds one number per
    consecutive pair of readings, the filter [x is not None] removes
    nothing from it, and the net shift is the sum of all of them. *)
Theorem X4_step_list_shape (glucose : list f64) (a : analysis) :
  analyze_meal glucose = Ok a ->
  List.length (an_dE a) = List.length glucose /\
  nth_error (an_dE a) 0 = Some None /\
  List.length (an_steps a) = (List.length glucose - 1)%nat /\
  Forall (fun x => x <> None) (an_steps a) /\
  map Some (not_None (an_steps a)) = an_steps a /\
  an_net a = py_sum (not_None (an_steps a)).
Proof.
  intros Ha.
  destruct (analyze_meal_fields _ _ Ha) as (HdE & Hsteps & Hnet).
  assert (Hne : glucose <> []).
  { intros ->. discriminate Ha. }
  destruct (classify_total
              (fst (compute_T_E glucose g_min_default g_max_default)))
    as [s Hs].
  { rewrite compute_T_E_maps. cbn [fst]. destruct glucose; [ congruence | discriminate ]. }
  destruct (analyze_meal_ok _ _ Hs) as (a' & Ha' & _ & HT & HEa & _).
  assert (a' = a) by congruence. subst a'.
  assert (HlE : List.length (an_E a) = List.length glucose)
    by (rewrite HEa, HT, !length_map; reflexivity).
  rewrite Hsteps, HdE. unfold compute_dE_pct. cbn [app tl nth_error List.length].
  rewrite !length_map, length_seq, HlE.
  repeat split; try assumption.
  - destruct glucose; [ congruence | cbn; lia ].
  - apply Forall_forall. intros x Hx. apply in_map_iff in Hx.
    destruct Hx as [i [<- _]]. discriminate.
  - rewrite not_None_Some, map_map. reflexivity.
  - rewrite Hnet, Hsteps, HdE. unfold compute_dE_pct. cbn [app tl].
    rewrite HlE. reflexivity.
Qed.

Lemma X4_step_list_shape_witness :
  exists a, analyze_meal (q5 4.0 6.0 7.0 6.5 5.5) = Ok a /\
    List.length (an_dE a) = 5%nat /\
    nth_error (an_dE a) 0 = Some None /\
    List.length (an_steps a) = 4%nat /\
    Forall (fun x => x <> None) (an_steps a) /\
    map Some (not_None (an_steps a)) = an_steps a /\
    an_net a = py_sum (not_None (an_steps a)).
Proof.
  eexists. split; [ vm_compute; reflexivity | ].
  apply (X4_step_list_shape (q5 4.0 6.0 7.0 6.5 5.5)). vm_compute; reflexivity.
Defined.

(** X11.  Take finite readings and a position whose reading is below 25.0
    and is not the last.  The step from that position to the next is a
    finite number with the sign of the move of E: negative exactly when E
    fell, zero exactly when it stayed, positive exactly when it rose; and
    it is never below -100. *)
Theorem X11_step_change_sign (g0 : Q) (gs : list Q) (i : nat) (g : Q) :
  nth_error (g0 :: gs) i = Some g ->
  g < 25.0 ->
  (S i < List.length (g0 :: gs))%nat ->
  exists (a : analysis) (prev cur q : Q),
    analyze_meal (map Fin (g0 :: gs)) = Ok a /\
    nth_error (an_E a) i = Some (Fin prev) /\
    nth_error (an_E a) (S i) = Some (Fin cur) /\
    nth_error (an_steps a) i = Some (Some (Fin q)) /\
    (q < 0 <-> cur < prev) /\
    (q == 0 <-> cur == prev) /\
    (0 < q <-> prev < cur) /\
    -100 <= q.
Proof.
  intros Hg Hlt Hi.
  destruct (analyze_finite g0 gs)
    as (a & e0 & es & mn & r & Ha & HE & He0 & HF & _).
  destruct (analyze_meal_fields _ _ Ha) as (HdE & Hsteps & _).
  assert (HF' : Forall2 (fun g e => e == E_val 3.0 25.0 g) (g0 :: gs) (e0 :: es))
    by (constructor; assumption).
  assert (Hlen : List.length (e0 :: es) = List.length (g0 :: gs))
    by (symmetry; apply (Forall2_length HF')).
  destruct (Forall2_nth_error_l _ _ _ i g HF' Hg) as [prev [Hp Hpv]].
  destruct (nth_error (e0 :: es) (S i)) as [cur | ] eqn:Hc;
    [ | apply nth_error_None in Hc; lia ].
  assert (Hrange := E_val_entries_range g0 gs e0 es He0 HF).
  assert (Hp01 : 0 <= prev <= 1) by (apply Hrange; eapply nth_error_In; exact Hp).
  assert (Hc01 : 0 <= cur <= 1) by (apply Hrange; eapply nth_error_In; exact Hc).
  assert (Hpnz : ~ prev == 0).
  { intro Hz. rewrite Hpv in Hz. apply E_val_zero_iff in Hz. lra. }
  assert (Hpos : 0 < prev) by lra.
  exists a, prev, cur, ((cur - prev) / prev * 100.0).
  split; [ exact Ha | ]. rewrite HE.
  split; [ apply map_nth_error, Hp | ].
  split; [ apply map_nth_error, Hc | ].
  split.
  - rewrite Hsteps, HdE, HE, steps_nth by (rewrite length_map; lia).
    do 2 f_equal. apply (dE_at_Fin (e0 :: es) (S i) prev cur); [ | exact Hc | exact Hpnz ].
    replace (S i - 1)%nat with i by lia. exact Hp.
  - set (d := (cur - prev) / prev).
    assert (Hd : d * prev == cur - prev) by (unfold d; field; lra).
    repeat split; intros; nra.
Qed.

Lemma X11_step_change_sign_witness :
  exists (a : analysis) (prev cur q : Q),
    analyze_meal (map Fin [4.0; 6.0; 7.0; 6.5; 5.5]) = Ok a /\
    nth_error (an_E a) 2 = Some (Fin prev) /\
    nth_error (an_E a) 3 = Some (Fin cur) /\
    nth_error (an_steps a) 2 = Some (Some (Fin q)) /\
    (q < 0 <-> cur < prev) /\
    (q == 0 <-> cur == prev) /\
    (0 < q <-> prev < cur) /\
    -100 <= q.
Proof.
  apply (X11_step_change_sign 4.0 [6.0; 7.0; 6.5; 5.5] 2 7.0).
  - reflexivity.
  - reflexivity.
  - cbn; lia.
Defined.

(** C4.  On five finite values with [E[0..3]] nonzero the step list is
    [None] followed by [(E[i] - E[i-1]) / E[i-1] * 100.0] for [i = 1..4],
    and the net shift is the plain sum of those four numbers.  The net
    shift the handler passes on is that sum: its [net] is Python's [sum]
    over [dE[1:]], and for five finite readings of which the first four
    are below 25.0 it equals the sum of the four steps.  On
    [E = [1.0, 0.9, 0.81, 0.9, 1.0]] the steps are -10, -10, 100/9, 100/9
    and the net shift is 20/9, about +2.22 (a compounded change would be 0,
    since [E] ends where it started); the binary64 run gives the same
    numbers up to rounding. *)
Theorem C4_step_changes_and_net :
  (forall e0 e1 e2 e3 e4 : Q,
     ~ e0 == 0 -> ~ e1 == 0 -> ~ e2 == 0 -> ~ e3 == 0 ->
     let E := q5 e0 e1 e2 e3 e4 in
     let s1 := (e1 - e0) / e0 * 100.0 in
     let s2 := (e2 - e1) / e1 * 100.0 in
     let s3 := (e3 - e2) / e2 * 100.0 in
     let s4 := (e4 - e3) / e3 * 100.0 in
     compute_dE_pct E =
       [None; Some (Fin s1); Some (Fin s2); Some (Fin s3); Some (Fin s4)] /\
     (py_sum (not_None (tl (compute_dE_pct E))) =~ Fin (s1 + s2 + s3 + s4))%f64) /\
  (exists x1 x2 x3 x4 net : Q,
     compute_dE_pct (q5 1.0 0.9 0.81 0.9 1.0) =
       [None; Some (Fin x1); Some (Fin x2); Some (Fin x3); Some (Fin x4)] /\
     x1 == -10.0 /\ x2 == -10.0 /\ x3 == 100 # 9 /\ x4 == 100 # 9 /\
     py_sum (not_None (tl (compute_dE_pct (q5 1.0 0.9 0.81 0.9 1.0)))) = Fin net /\
     net == x1 + x2 + x3 + x4 /\ net == 20 # 9 /\ 2.22 < net < 2.23) /\
  (forall (glucose : list f64) (a : analysis),
     analyze_meal glucose = Ok a ->
     an_dE a = compute_dE_pct (an_E a) /\
     an_steps a = tl (an_dE a) /\
     an_net a = py_sum (not_None (an_steps a))) /\
  (forall g0 g1 g2 g3 g4 : Q,
     g0 < 25.0 -> g1 < 25.0 -> g2 < 25.0 -> g3 < 25.0 ->
     exists (a : analysis) (e0 e1 e2 e3 e4 : Q),
       analyze_meal (q5 g0 g1 g2 g3 g4) = Ok a /\
       an_E a = q5 e0 e1 e2 e3 e4 /\
       an_steps a =
         [Some (Fin ((e1 - e0) / e0 * 100.0)); Some (Fin ((e2 - e1) / e1 * 100.0));
          Some (Fin ((e3 - e2) / e2 * 100.0)); Some (Fin ((e4 - e3) / e3 * 100.0))] /\
       (an_net a =~
          Fin ((e1 - e0) / e0 * 100.0 + (e2 - e1) / e1 * 100.0
               + (e3 - e2) / e2 * 100.0 + (e4 - e3) / e3 * 100.0))%f64) /\
  (exists x1 x2 x3 x4 : float,
     B64.compute_dE_pct [1.0; 0.9; 0.81; 0.9; 1.0]%float =
       [None; Some x1; Some x2; Some x3; Some x4] /\
     PrimFloat.ltb (PrimFloat.abs (x1 + 10.0)) 1e-9 = true /\
     PrimFloat.ltb (PrimFloat.abs (x2 + 10.0)) 1e-9 = true /\
     PrimFloat.ltb (PrimFloat.abs (x3 * 9.0 - 100.0)) 1e-9 = true /\
     PrimFloat.ltb (PrimFloat.abs (x4 * 9.0 - 100.0)) 1e-9 = true /\
     B64.py_sum (B64.not_None (tl (B64.compute_dE_pct [1.0; 0.9; 0.81; 0.9; 1.0]%float)))
       = (0.0 + x1 + x2 + x3 + x4)%float /\
     PrimFloat.ltb 2.22 (0.0 + x1 + x2 + x3 + x4) = true /\
     PrimFloat.ltb (0.0 + x1 + x2 + x3 + x4) 2.23 = true).
Proof.
  assert (H1 : forall e0 e1 e2 e3 e4 : Q,
     ~ e0 == 0 -> ~ e1 == 0 -> ~ e2 == 0 -> ~ e3 == 0 ->
     let E := q5 e0 e1 e2 e3 e4 in
     let s1 := (e1 - e0) / e0 * 100.0 in
     let s2 := (e2 - e1) / e1 * 100.0 in
     let s3 := (e3 - e2) / e2 * 100.0 in
     let s4 := (e4 - e3) / e3 * 100.0 in
     compute_dE_pct E =
       [None; Some (Fin s1); Some (Fin s2); Some (Fin s3); Some (Fin s4)] /\
     (py_sum (not_None (tl (compute_dE_pct E))) =~ Fin (s1 + s2 + s3 + s4))%f64).
  { intros e0 e1 e2 e3 e4 H0 H1 H2 H3 E s1 s2 s3 s4.
    apply Qeq_bool_false in H0, H1, H2, H3.
    assert (HdE : compute_dE_pct E =
              [None; Some (Fin s1); Some (Fin s2); Some (Fin s3); Some (Fin s4)]).
    { unfold compute_dE_pct, dE_at, item, E, q5.
      cbn [List.length Nat.sub seq map nth app fsub fopp fadd fdiv fmul].
      rewrite H0, H1, H2, H3. reflexivity. }
    split; [ exact HdE | ].
    rewrite HdE. cbn. ring. }
  split; [ exact H1 | ].
  split.
  { eexists _, _, _, _, _.
    split; [ reflexivity | ].
    repeat split; reflexivity. }
  split; [ exact analyze_meal_fields | ].
  split; [ | by_run ].
  intros g0 g1 g2 g3 g4 L0 L1 L2 L3.
  destruct (analyze_finite g0 [g1; g2; g3; g4])
    as (a & e0 & es & mn & r & Ha & HE & He0 & HF & _).
  inversion HF as [ | ? e1 ? es1 He1 HF1 ]; subst.
  inversion HF1 as [ | ? e2 ? es2 He2 HF2 ]; subst.
  inversion HF2 as [ | ? e3 ? es3 He3 HF3 ]; subst.
  inversion HF3 as [ | ? e4 ? es4 He4 HF4 ]; subst.
  inversion HF4; subst.
  assert (Hnz : forall g e, e == E_val 3.0 25.0 g -> g < 25.0 -> ~ e == 0).
  { intros g e He Hg Hz. rewrite He in Hz. apply E_val_zero_iff in Hz. lra. }
  destruct (H1 e0 e1 e2 e3 e4 (Hnz _ _ He0 L0) (Hnz _ _ He1 L1)
              (Hnz _ _ He2 L2) (Hnz _ _ He3 L3)) as [HdE Hnet].
  destruct (analyze_meal_fields _ _ Ha) as (HdEa & Hsteps & Hneta).
  change (map Fin [e0; e1; e2; e3; e4]) with (q5 e0 e1 e2 e3 e4) in HE.
  exists a, e0, e1, e2, e3, e4.
  split; [ exact Ha | ]. split; [ exact HE | ].
  assert (Hst : an_steps a = tl (compute_dE_pct (q5 e0 e1 e2 e3 e4)))
    by (rewrite Hsteps, HdEa, HE; reflexivity).
  split.
  - rewrite Hst, HdE. reflexivity.
  - rewrite Hneta, Hst. exact Hnet.
Qed.

(** The readings [3, 14, 14, 8.5, 8.5] give [E = [1, 0.75, 0.75, 0.9375,
    0.9375]], every value and every quotient exact in binary64 as well: the
    steps are -25, 0, +25 and 0, and the net shift is their sum 0, although
    [E] ends 6.25 percent below where it started. *)
Lemma C4_step_changes_and_net_witness :
  exists (a : analysis),
    analyze_meal (q5 3.0 14.0 14.0 8.5 8.5) = Ok a /\
    Forall2 (fun x q => exists y, x = Fin y /\ y == q) (an_E a)
      [1.0; 0.75; 0.75; 0.9375; 0.9375] /\
    Forall2 (fun x q => exists y, x = Some (Fin y) /\ y == q) (an_steps a)
      [-25.0; 0.0; 25.0; 0.0] /\
    (an_net a =~ Fin 0)%f64.
Proof.
  destruct (proj1 (proj2 (proj2 (proj2 C4_step_changes_and_net)))
              3.0 14.0 14.0 8.5 8.5)
    as (a & e0 & e1 & e2 & e3 & e4 & Ha & HE & Hst & Hnet);
    try reflexivity.
  exists a. split; [ exact Ha | ].
  assert (Hv : an_E a = q5 e0 e1 e2 e3 e4) by exact HE.
  pose proof Ha as Ha'. vm_compute in Ha'. injection Ha' as <-.
  cbn [an_E] in Hv. injection Hv as <- <- <- <- <-.
  split.
  - repeat constructor; eexists; (split; [ reflexivity | vm_compute; reflexivity ]).
  - split.
  + rewrite Hst.
    repeat constructor; eexists; (split; [ reflexivity | vm_compute; reflexivity ]).
  + vm_compute. reflexivity.
Defined.

(** The same readings on binary64. *)
Example exact_steps_b64 :
  exists a, B64.analyze_meal [3.0; 14.0; 14.0; 8.5; 8.5]%float = Ok a /\
    B64.an_E a = [1.0; 0.75; 0.75; 0.9375; 0.9375]%float /\
    B64.an_steps a = [Some (-25.0); Some 0.0; Some 25.0; Some 0.0]%float /\
    B64.an_net a = 0.0%float.
Proof. by_run. Qed.

(** X12.  For finite readings the net shift is a number exactly when every
    reading except the last is below 25.0.  A reading of 25.0 or more at
    any earlier position makes [E] zero there, the following step an
    infinity or a NaN, and with it the net shift. *)
Theorem X12_net_shift_finite_iff (g0 : Q) (gs : list Q) :
  exists a, analyze_meal (map Fin (g0 :: gs)) = Ok a /\
    (finite (an_net a) <->
     forall i g, (S i < List.length (g0 :: gs))%nat ->
                 nth_error (g0 :: gs) i = Some g -> g < 25.0).
Proof.
  destruct (analyze_finite g0 gs)
    as (a & e0 & es & mn & r & Ha & HE & He0 & HF & _ & _ & _ & _
        & _ & _ & _ & Hcls).
  destruct (analyze_meal_fields _ _ Ha) as (HdE & Hsteps & Hnet).
  exists a. split; [ exact Ha | ].
  assert (HF' : Forall2 (fun g e => e == E_val 3.0 25.0 g) (g0 :: gs) (e0 :: es))
    by (constructor; assumption).
  assert (Hlen : List.length (e0 :: es) = List.length (g0 :: gs))
    by (symmetry; apply (Forall2_length HF')).
  rewrite Hnet, Hsteps, HdE, HE.
  split.
  - intros Hfin i g Hi Hg.
    destruct (Qlt_le_dec g 25.0) as [Hlt | Hge]; [ exact Hlt | exfalso ].
    destruct (Forall2_nth_error_l _ _ _ i g HF' Hg) as [e [He Hev]].
    assert (Hz : e == 0) by (rewrite Hev; apply E_val_zero_iff, Hge).
    destruct (zero_predecessor_reaches_net (map Fin (e0 :: es)) (S i))
      as (x & _ & _ & _ & Hnf).
    + rewrite length_map, Hlen. lia.
    + replace (S i - 1)%nat with i by lia.
      rewrite (item_Fin (e0 :: es) i e He). cbn [is_zero].
      apply Qeq_bool_iff, Hz.
    + apply Hnf, Hfin.
  - intros Hall. apply py_sum_finite. rewrite steps_of_dE.
    apply Forall_forall. intros x Hx. apply in_map_iff in Hx.
    destruct Hx as [i [<- Hi]]. apply in_seq in Hi. rewrite length_map in Hi.
    assert (Hp : exists p, nth_error (e0 :: es) (i - 1) = Some p).
    { destruct (nth_error (e0 :: es) (i - 1)) as [p | ] eqn:Hn;
        [ exists p; reflexivity | ].
      apply nth_error_None in Hn. lia. }
    assert (Hc : exists c, nth_error (e0 :: es) i = Some c).
    { destruct (nth_error (e0 :: es) i) as [c | ] eqn:Hn;
        [ exists c; reflexivity | ].
      apply nth_error_None in Hn. lia. }
    destruct Hp as [p Hp], Hc as [c Hc].
    assert (Hg : exists g, nth_error (g0 :: gs) (i - 1) = Some g).
    { destruct (nth_error (g0 :: gs) (i - 1)) as [g | ] eqn:Hn;
        [ exists g; reflexivity | ].
      apply nth_error_None in Hn. lia. }
    destruct Hg as [g Hg].
    destruct (Forall2_nth_error_l _ _ _ (i - 1)%nat g HF' Hg) as [p' [Hp' Hpv]].
    assert (p' = p) by congruence. subst p'.
    assert (Hlt : g < 25.0) by (apply (Hall (i - 1)%nat g); [ lia | exact Hg ]).
    assert (Hnz : ~ p == 0).
    { intro Hz. rewrite Hpv in Hz. apply E_val_zero_iff in Hz. lra. }
    rewrite (dE_at_Fin (e0 :: es) i p c Hp Hc Hnz). exact I.
Qed.

Lemma X12_net_shift_finite_iff_witness :
  exists a, analyze_meal (map Fin [4.0; 6.0; 7.0; 6.5; 25.0]) = Ok a /\
    (finite (an_net a) <->
     forall i g, (S i < List.length ([4.0; 6.0; 7.0; 6.5; 25.0]%Q))%nat ->
                 nth_error [4.0; 6.0; 7.0; 6.5; 25.0] i = Some g -> g < 25.0).
Proof. apply (X12_net_shift_finite_iff 4.0 [6.0; 7.0; 6.5; 25.0]). Defined.

(** ** A baseline at or above the upper bound, and NaN readings *)

Section Degenerate.

Lemma fold_fadd_NaN (xs : list f64) : fold_left fadd xs NaN = NaN.
Proof. induction xs as [ | x xs IH ]; [ reflexivity | exact IH ]. Qed.

Lemma fold_fadd_with_NaN (xs : list f64) (acc : f64) :
  In NaN xs -> fold_left fadd xs acc = NaN.
Proof.
  revert acc. induction xs as [ | x xs IH ]; intros acc Hin; [ destruct Hin | ].
  cbn [fold_left]. destruct Hin as [ -> | Hin ].
  - replace (acc + NaN)%f64 with NaN by (destruct acc; reflexivity).
    apply fold_fadd_NaN.
  - apply IH, Hin.
Qed.

Lemma T_of_NaN (lo hi : f64) : T_of lo hi NaN = NaN.
Proof. unfold T_of. destruct lo, hi; reflexivity. Qed.

End Degenerate.

(** X14.  A first reading of 25.0 or more decides the status by itself:
    [E_pre] is 0, [E_mean_rel] is set to 100.0 and the status is GREEN,
    whatever the later readings are (infinities and NaN included). *)
Theorem X14_baseline_at_upper_bound_is_GREEN (g0 : Q) (gs : list f64) :
  25.0 <= g0 ->
  exists a, analyze_meal (Fin g0 :: gs) = Ok a /\
    (E_pre (an_summary a) =~ Fin 0)%f64 /\
    E_mean_rel (an_summary a) = Fin 100.0 /\
    status (an_summary a) = "GREEN".
Proof.
  intros Hg.
  assert (Hne : ~ 25.0 == 3.0) by discriminate.
  destruct (E_of_T_of_finite 3.0 25.0 g0 Hne) as (t & e & _ & HE & _ & He).
  assert (Hz : e == 0) by (rewrite He; apply E_val_zero_iff, Hg).
  destruct (classify_total
              (fst (compute_T_E (Fin g0 :: gs) g_min_default g_max_default)))
    as [s Hs].
  { rewrite compute_T_E_maps. discriminate. }
  destruct (analyze_meal_ok _ _ Hs) as (a & Ha & Hsum & _).
  exists a. split; [ exact Ha | ]. rewrite Hsum.
  rewrite compute_T_E_maps in Hs. cbn [fst map] in Hs.
  unfold g_min_default, g_max_default in Hs. rewrite HE in Hs.
  rewrite classify_cons in Hs. cbv zeta in Hs. injection Hs as <-.
  cbn [E_pre E_mean_rel status]. unfold rel_of.
  rewrite (proj2 (feqb_Fin e 0) Hz).
  split; [ exact Hz | ]. split; reflexivity.
Qed.

Lemma X14_baseline_at_upper_bound_is_GREEN_witness :
  exists a, analyze_meal (Fin 30.0 :: [Fin 4.0; NaN; Inf false; Fin 39.0]) = Ok a /\
    (E_pre (an_summary a) =~ Fin 0)%f64 /\
    E_mean_rel (an_summary a) = Fin 100.0 /\
    status (an_summary a) = "GREEN".
Proof.
  apply (X14_baseline_at_upper_bound_is_GREEN 30.0 [Fin 4.0; NaN; Inf false; Fin 39.0]).
  discriminate.
Defined.

(** X15.  With a finite first reading below 25.0, one NaN among the
    readings is enough for RED: the mean of [E] is NaN, so is
    [E_mean_rel], and both threshold tests fail. *)
Theorem X15_NaN_reading_is_RED (g0 : Q) (gs : list f64) :
  g0 < 25.0 ->
  In NaN gs ->
  exists a, analyze_meal (Fin g0 :: gs) = Ok a /\
    E_mean (an_summary a) = NaN /\
    E_mean_rel (an_summary a) = NaN /\
    status (an_summary a) = "RED".
Proof.
  intros Hg Hin.
  assert (Hne : ~ 25.0 == 3.0) by discriminate.
  destruct (E_of_T_of_finite 3.0 25.0 g0 Hne) as (t & e & _ & HE & _ & He).
  assert (Hnz : ~ e == 0).
  { intro Hz. rewrite He in Hz. apply E_val_zero_iff in Hz. lra. }
  destruct (classify_total
              (fst (compute_T_E (Fin g0 :: gs) g_min_default g_max_default)))
    as [s Hs].
  { rewrite compute_T_E_maps. discriminate. }
  destruct (analyze_meal_ok _ _ Hs) as (a & Ha & Hsum & _).
  exists a. split; [ exact Ha | ]. rewrite Hsum.
  rewrite compute_T_E_maps in Hs. cbn [fst map] in Hs.
  unfold g_min_default, g_max_default in Hs. rewrite HE in Hs.
  rewrite classify_cons in Hs. cbv zeta in Hs. injection Hs as <-.
  cbn [E_mean E_mean_rel status]. unfold rel_of.
  rewrite (proj2 (feqb_Fin_false e 0) Hnz).
  assert (Hmean : np_mean (Fin e :: map E_of_T (map (T_of (Fin 3.0) (Fin 25.0)) gs))
                  = NaN).
  { unfold np_mean, np_sum. rewrite fold_fadd_with_NaN; [ reflexivity | ].
    right. apply in_map_iff. exists NaN. split; [ reflexivity | ].
    apply in_map_iff. exists NaN. split; [ apply T_of_NaN | exact Hin ]. }
  rewrite Hmean. repeat split; reflexivity.
Qed.

Lemma X15_NaN_reading_is_RED_witness :
  exists a, analyze_meal (Fin 4.0 :: [Fin 4.0; NaN; Fin 4.0; Fin 4.0]) = Ok a /\
    E_mean (an_summary a) = NaN /\
    E_mean_rel (an_summary a) = NaN /\
    status (an_summary a) = "RED".
Proof.
  apply (X15_NaN_reading_is_RED 4.0 [Fin 4.0; NaN; Fin 4.0; Fin 4.0]).
  - reflexivity.
  - right; left; reflexivity.
Defined.

(** ** The step-change calculator on a plain list *)

Section PlainList.

Lemma dE_loop_py_ok (E : list f64) (idx : list nat) :
  (forall i, In i idx -> is_zero (item E (i - 1)) = false) ->
  dE_loop_py E idx = Ok (map (fun i => Some (dE_at E i)) idx).
Proof.
  induction idx as [ | i idx IH ]; intros H; [ reflexivity | ].
  cbn [dE_loop_py map]. unfold py_div.
  rewrite (H i (or_introl eq_refl)). cbn [bind].
  rewrite IH by (intros j Hj; apply H; right; exact Hj).
  reflexivity.
Qed.

Lemma dE_loop_py_raises (E : list f64) (idx : list nat) (i : nat) :
  In i idx -> is_zero (item E (i - 1)) = true ->
  dE_loop_py E idx = Raise ZeroDivisionError.
Proof.
  induction idx as [ | j idx IH ]; intros Hin Hz; [ destruct Hin | ].
  cbn [dE_loop_py]. unfold py_div.
  destruct (is_zero (item E (j - 1))) eqn:Hj; [ reflexivity | ].
  cbn [bind]. destruct Hin as [ -> | Hin ]; [ congruence | ].
  rewrite (IH Hin Hz). reflexivity.
Qed.

End PlainList.

(** X16.  Given a plain list of Python floats, [compute_dE_pct] raises
    [ZeroDivisionError] as soon as one predecessor [E[i-1]] is zero, and
    returns nothing; when no predecessor is zero it returns the same list
    as for a numpy array. *)
Theorem X16_plain_list_raises_on_zero_predecessor (E : list f64) :
  ((forall i, (1 <= i < List.length E)%nat -> is_zero (item E (i - 1)) = false) ->
   compute_dE_pct_py E = Ok (compute_dE_pct E)) /\
  (forall i, (1 <= i < List.length E)%nat -> is_zero (item E (i - 1)) = true ->
   compute_dE_pct_py E = Raise ZeroDivisionError).
Proof.
  unfold compute_dE_pct_py, compute_dE_pct. split.
  - intros H. rewrite dE_loop_py_ok; [ reflexivity | ].
    intros i Hi. apply in_seq in Hi. apply H. lia.
  - intros i Hi Hz.
    rewrite (dE_loop_py_raises E _ i); [ reflexivity | | exact Hz ].
    apply in_seq. lia.
Qed.

Lemma X16_plain_list_raises_on_zero_predecessor_witness :
  compute_dE_pct_py (q5 1 0.5 0 0.5 1) = Raise ZeroDivisionError /\
  (exists x, nth 3 (compute_dE_pct (q5 1 0.5 0 0.5 1)) None = Some x /\ ~ finite x) /\
  compute_dE_pct_py (q5 1 0.5 0.25 0.5 0) = Ok (compute_dE_pct (q5 1 0.5 0.25 0.5 0)).
Proof.
  split; [ | split ].
  - apply (proj2 (X16_plain_list_raises_on_zero_predecessor (q5 1 0.5 0 0.5 1)) 3%nat).
    + cbn; lia.
    + reflexivity.
  - exists (Inf false). split; [ reflexivity | cbn; tauto ].
  - apply (proj1 (X16_plain_list_raises_on_zero_predecessor (q5 1 0.5 0.25 0.5 0))).
    intros i Hi. cbn in Hi.
    assert (Hc : i = 1%nat \/ i = 2%nat \/ i = 3%nat \/ i = 4%nat) by lia.
    destruct Hc as [ -> | [ -> | [ -> | -> ] ] ]; reflexivity.
Defined.

(** ** Rounding and the order of the readings *)

(** On binary64 the sum of E depends on the order of the summands.  These
    two meals hold the same readings after the first one; the first meal
    is RED with [E_mean_rel = 74.99999999999999], the second is YELLOW
    with [E_mean_rel = 75.0]. *)
Example order_of_later_readings_can_change_status :
  (exists a, B64.analyze_meal [3.0; 3.5; 9.5; 16.5; 22.5]%float = Ok a /\
     B64.E_mean_rel (B64.an_summary a) = 74.99999999999999%float /\
     B64.status (B64.an_summary a) = "RED") /\
  (exists a, B64.analyze_meal [3.0; 16.5; 3.5; 9.5; 22.5]%float = Ok a /\
     B64.E_mean_rel (B64.an_summary a) = 75.0%float /\
     B64.status (B64.an_summary a) = "YELLOW").
Proof. split; by_run. Qed.

(** Later readings never below the baseline, and still a relative mean
    over 100: rounding alone does it. *)
Example relative_mean_over_100_by_rounding :
  exists a, B64.analyze_meal [3.2; 3.2; 3.2; 3.2; 3.2]%float = Ok a /\
    B64.E_mean_rel (B64.an_summary a) = 100.00000000000003%float /\
    B64.status (B64.an_summary a) = "GREEN".
Proof. by_run. Qed.
